(** * Entity extraction of the meeting scheduler chatbot

    A shallow embedding of [src/entity_extraction_chatbot.py]
    ([AdvancedEntityExtractor.parse_date] and
    [AdvancedEntityExtractor.extract_entities]) and the properties of
    its specification.

    Conventions of the embedding.
    - A Python [str] is a [string] whose characters are the code points
      0..255 (the Latin-1 range of Unicode); the character classes of
      [re] ([\d], [\s], [\w]) and [str.lower] are written out for that
      range as CPython computes them. Texts with other characters are
      outside the embedding.
    - The [re] module is embedded as a backtracking matcher [Re.run] that
      returns every way a pattern can match at a position, in the order
      the backtracking search of [re] tries them; the head of that list
      is the match [re] reports.
    - A [datetime] is its proleptic Gregorian ordinal (a [Z], day 1 is
      0001-01-01), with the range check of [datetime] arithmetic.
    - Exceptions are values of the error monad [result].
    - The spaCy pipeline [self.nlp] and the clock [datetime.now] are
      parameters of the functions.
    - Calls to the logger do not change any value and are left out. *)

From Stdlib Require Import String Ascii List Sorted ZArith NArith Arith Bool Lia.
Import ListNotations.
Local Open Scope string_scope.
Local Open Scope list_scope.

(* ------------------------------------------------------------------ *)
(** * Characters *)

Module Chr.

Definition code (c : ascii) : N := N_of_ascii c.

Definition between (lo hi : N) (c : ascii) : bool :=
  ((lo <=? code c) && (code c <=? hi))%N.

Definition is_code (n : N) (c : ascii) : bool := (code c =? n)%N.

(** [[0-9]], which is [\d] on the range 0..255. *)
Definition is_digit (c : ascii) : bool := between 48 57 c.

(** [[A-Z]] and [[a-z]]. *)
Definition is_AZ (c : ascii) : bool := between 65 90 c.
Definition is_az (c : ascii) : bool := between 97 122 c.

(** [\s] of a [str] pattern: [str.isspace] on 0..255. *)
Definition is_space (c : ascii) : bool :=
  between 9 13 c || between 28 32 c || is_code 133 c || is_code 160 c.

(** [\w] of a [str] pattern: alphanumeric or underscore on 0..255. *)
Definition is_word (c : ascii) : bool :=
  is_digit c || is_AZ c || is_code 95 c || is_az c
  || is_code 170 c || between 178 179 c || is_code 181 c
  || between 185 186 c || between 188 190 c
  || between 192 214 c || between 216 246 c || between 248 255 c.

(** [str.lower] on one character of 0..255. *)
Definition lower (c : ascii) : ascii :=
  if is_AZ c || between 192 214 c || between 216 222 c
  then ascii_of_N (code c + 32)
  else c.

End Chr.

(** [str.lower]. *)
Fixpoint lower (s : string) : string :=
  match s with
  | EmptyString => EmptyString
  | String c s' => String (Chr.lower c) (lower s')
  end.

(** [s[:n]]. *)
Fixpoint take (n : nat) (s : string) : string :=
  match n, s with
  | S k, String c s' => String c (take k s')
  | _, _ => EmptyString
  end.

(* ------------------------------------------------------------------ *)
(** * The regular expressions of [re] that the program uses *)

Module Re.

Inductive regex : Type :=
| Eps                              (* the empty pattern *)
| Lit (a : ascii)                  (* one literal character *)
| Cls (p : ascii -> bool)          (* a class: \d, \s, [A-Z], [a-z] *)
| Seq (r1 r2 : regex)              (* r1 r2 *)
| Alt (r1 r2 : regex)              (* r1|r2, r1 is tried first *)
| Opt (r : regex)                  (* (?:r)?, greedy *)
| Star (p : ascii -> bool)         (* p*, greedy, p a class *)
| Plus (p : ascii -> bool)         (* p+, greedy, p a class *)
| WordB                            (* \b *)
| NotAhead (p : ascii -> bool)     (* (?!p), p a class *)
| Group (n : nat) (r : regex).     (* the n-th capturing group (r) *)

(** A literal word, as the sequence of its characters. *)
Fixpoint word (s : string) : regex :=
  match s with
  | EmptyString => Eps
  | String a s' => Seq (Lit a) (word s')
  end.

(** [r1|r2|...|rn], the way ['|'.join] builds it. *)
Fixpoint alts (rs : list regex) : regex :=
  match rs with
  | [] => Eps
  | [r] => r
  | r :: rs' => Alt r (alts rs')
  end.

(** [r1 r2 ... rn]. *)
Fixpoint seqs (rs : list regex) : regex :=
  match rs with
  | [] => Eps
  | [r] => r
  | r :: rs' => Seq r (seqs rs')
  end.

(** A point of the search: the groups captured so far, the character
    before the position ([None] at the start of the text) and the text
    from the position on. *)
Record cfg : Type := Cfg {
  caps : list (nat * string);
  prev : option ascii;
  rest : string
}.

Definition opt_word (o : option ascii) : bool :=
  match o with Some c => Chr.is_word c | None => false end.

Definition next (s : string) : option ascii :=
  match s with String b _ => Some b | EmptyString => None end.

(** [\b]: exactly one of the two neighbours is a word character. *)
Definition at_boundary (c : cfg) : bool :=
  xorb (opt_word (prev c)) (opt_word (next (rest c))).

(** A literal matches its own character; under [re.IGNORECASE] it
    matches the characters with the same lower case. This is what [re]
    does on the code points 0..255; beyond them [re] also matches
    U+017F for s, U+0130 and U+0131 for i and U+212A for k. *)
Definition lit_eq (ic : bool) (a b : ascii) : bool :=
  if ic then Ascii.eqb (Chr.lower a) (Chr.lower b) else Ascii.eqb a b.

(** The text between two points of one search. *)
Definition consumed (c c' : cfg) : string :=
  take (String.length (rest c) - String.length (rest c')) (rest c).

(** All the ways to run [p*] greedily: the longest first. *)
Fixpoint star (p : ascii -> bool) (g : list (nat * string))
    (pv : option ascii) (s : string) : list cfg :=
  match s with
  | String b s' =>
      if p b then star p g (Some b) s' ++ [Cfg g pv s] else [Cfg g pv s]
  | EmptyString => [Cfg g pv s]
  end.

(** [run ic r c]: the points where a match of [r] that starts at [c]
    can end, in the order backtracking reaches them. [ic] is
    [re.IGNORECASE]. *)
Fixpoint run (ic : bool) (r : regex) (c : cfg) : list cfg :=
  match r with
  | Eps => [c]
  | Lit a =>
      match rest c with
      | String b s' => if lit_eq ic a b then [Cfg (caps c) (Some b) s'] else []
      | EmptyString => []
      end
  | Cls p =>
      match rest c with
      | String b s' => if p b then [Cfg (caps c) (Some b) s'] else []
      | EmptyString => []
      end
  | Seq r1 r2 => flat_map (run ic r2) (run ic r1 c)
  | Alt r1 r2 => run ic r1 c ++ run ic r2 c
  | Opt r1 => run ic r1 c ++ [c]
  | Star p => star p (caps c) (prev c) (rest c)
  | Plus p =>
      match rest c with
      | String b s' => if p b then star p (caps c) (Some b) s' else []
      | EmptyString => []
      end
  | WordB => if at_boundary c then [c] else []
  | NotAhead p =>
      match rest c with
      | String b _ => if p b then [] else [c]
      | EmptyString => [c]
      end
  | Group n r1 =>
      map (fun c' => Cfg ((n, consumed c c') :: caps c') (prev c') (rest c'))
          (run ic r1 c)
  end.

(** A match object: where it starts, its text ([group(0)]) and its
    groups. *)
Record rmatch : Type := Match {
  m_start : nat;
  m_text : string;
  m_caps : list (nat * string)
}.

(** The match at one position, if any: the first way to run [r]. *)
Definition match_at (ic : bool) (r : regex) (pos : nat)
    (pv : option ascii) (s : string) : option rmatch :=
  match run ic r (Cfg [] pv s) with
  | c' :: _ => Some (Match pos (consumed (Cfg [] pv s) c') (caps c'))
  | [] => None
  end.

(** [m.group(n)]; a group that took no part in the match is [None]. *)
Fixpoint lookup (n : nat) (g : list (nat * string)) : option string :=
  match g with
  | [] => None
  | (k, v) :: g' => if Nat.eqb k n then Some v else lookup n g'
  end.

Definition group (n : nat) (m : rmatch) : option string := lookup n (m_caps m).

(** [re.match(r, s)]: a match at the start of [s] only. *)
Definition re_match (ic : bool) (r : regex) (s : string) : option rmatch :=
  match_at ic r 0 None s.

(** [re.search(r, s)]: the match at the first position that has one. *)
Fixpoint search_from (ic : bool) (r : regex) (pos : nat)
    (pv : option ascii) (s : string) : option rmatch :=
  match match_at ic r pos pv s with
  | Some m => Some m
  | None =>
      match s with
      | String b s' => search_from ic r (S pos) (Some b) s'
      | EmptyString => None
      end
  end.

Definition search (ic : bool) (r : regex) (s : string) : option rmatch :=
  search_from ic r 0 None s.

(** The truth value of a match object or [None]. *)
Definition found (m : option rmatch) : bool :=
  match m with Some _ => true | None => false end.

(** The scan of [finditer]: the matches from left to right, the search
    going on where the last match ended. [skip] counts the characters
    of the last match still to pass. No pattern of the program matches
    the empty string; after such a match the scan would move on by one
    character. *)
Fixpoint scan (ic : bool) (r : regex) (skip pos : nat)
    (pv : option ascii) (s : string) {struct s} : list rmatch :=
  match skip with
  | S k =>
      match s with
      | String b s' => scan ic r k (S pos) (Some b) s'
      | EmptyString => []
      end
  | O =>
      match match_at ic r pos pv s with
      | Some m =>
          m :: match s with
               | String b s' =>
                   scan ic r (String.length (m_text m) - 1) (S pos) (Some b) s'
               | EmptyString => []
               end
      | None =>
          match s with
          | String b s' => scan ic r 0 (S pos) (Some b) s'
          | EmptyString => []
          end
      end
  end.

Definition finditer (ic : bool) (r : regex) (s : string) : list rmatch :=
  scan ic r 0 0 None s.

(** [findall] of a pattern without groups: the texts of the matches. *)
Definition findall (ic : bool) (r : regex) (s : string) : list string :=
  map m_text (finditer ic r s).

(** [findall] of a pattern with [n > 1] groups: for each match the
    tuple of its groups, the empty string for a group that took no
    part. *)
Definition groups (n : nat) (m : rmatch) : list string :=
  map (fun k => match group k m with Some v => v | None => "" end) (seq 1 n).

Definition findall_groups (ic : bool) (n : nat) (r : regex) (s : string)
    : list (list string) :=
  map (groups n) (finditer ic r s).

End Re.

(* ------------------------------------------------------------------ *)
(** * Exceptions *)

Inductive exn : Type :=
| OverflowError                (* date value out of range *)
| KeyError (k : string)
| OtherError (msg : string).   (* whatever the spaCy pipeline raises *)

Inductive result (A : Type) : Type :=
| Ok (a : A)
| Raise (e : exn).

Arguments Ok {A} a.
Arguments Raise {A} e.

Definition bind {A B : Type} (m : result A) (k : A -> result B) : result B :=
  match m with
  | Ok a => k a
  | Raise e => Raise e
  end.

Notation "x <- m ;; k" := (bind m (fun x => k))
  (at level 61, m at next level, right associativity).

(* ------------------------------------------------------------------ *)
(** * Python dictionaries with string keys

    A [dict] keeps its keys in the order of their first insertion;
    assigning to a key that is present keeps its place. *)

Module Dict.

Definition dict (V : Type) : Type := list (string * V).

Fixpoint get {V : Type} (d : dict V) (k : string) : option V :=
  match d with
  | [] => None
  | (k', v) :: d' => if String.eqb k' k then Some v else get d' k
  end.

(** [d[k]], which raises [KeyError] for a missing key. *)
Definition getitem {V : Type} (d : dict V) (k : string) : result V :=
  match get d k with
  | Some v => Ok v
  | None => Raise (KeyError k)
  end.

(** [d[k] = v]. *)
Fixpoint set {V : Type} (d : dict V) (k : string) (v : V) : dict V :=
  match d with
  | [] => [(k, v)]
  | (k', v') :: d' =>
      if String.eqb k' k then (k, v) :: d' else (k', v') :: set d' k v
  end.

(** [list(d)]. *)
Definition keys {V : Type} (d : dict V) : list string := map fst d.

(** [dict.fromkeys(ks)]: every key bound to [None], here [tt]. *)
Definition fromkeys (ks : list string) : dict unit :=
  fold_left (fun d k => set d k tt) ks [].

End Dict.

(* ------------------------------------------------------------------ *)
(** * Dates

    What the program uses of [datetime]: a date is its proleptic
    Gregorian ordinal, between [date.min] (day 1) and [date.max]
    (9999-12-31). *)

Module Datetime.

Local Open Scope Z_scope.

Definition min_ord : Z := 1.
Definition max_ord : Z := 3652059.

Definition valid (d : Z) : bool := (min_ord <=? d) && (d <=? max_ord).

(** The ordinal of 1000-01-01, the first day of a year of four digits. *)
Definition ord_1000_01_01 : Z := 364878.

(** [d + timedelta(days=n)]; [OverflowError] outside the range. *)
Definition add_days (d n : Z) : result Z :=
  if valid (d + n) then Ok (d + n) else Raise OverflowError.

(** [d.weekday()]: Monday is 0, Sunday is 6. *)
Definition weekday (d : Z) : Z := (d + 6) mod 7.

Definition DI400Y : Z := 146097.
Definition DI100Y : Z := 36524.
Definition DI4Y : Z := 1461.

Definition days_before_month (month : Z) : Z :=
  nth (Z.to_nat month) [0; 0; 31; 59; 90; 120; 151; 181; 212; 243; 273; 304; 334] 0.

Definition days_in_month (month : Z) : Z :=
  nth (Z.to_nat month) [0; 31; 28; 31; 30; 31; 30; 31; 31; 30; 31; 30; 31] 0.

Definition b2z (b : bool) : Z := if b then 1 else 0.

(** [_ord2ymd] of CPython's [datetime]: year, month and day of an
    ordinal. *)
Definition ord2ymd (ordinal : Z) : Z * Z * Z :=
  let n := ordinal - 1 in
  let n400 := n / DI400Y in
  let n := n mod DI400Y in
  let year := n400 * 400 + 1 in
  let n100 := n / DI100Y in
  let n := n mod DI100Y in
  let n4 := n / DI4Y in
  let n := n mod DI4Y in
  let n1 := n / 365 in
  let n := n mod 365 in
  let year := year + n100 * 100 + n4 * 4 + n1 in
  if (n1 =? 4) || (n100 =? 4) then (year - 1, 12, 31)
  else
    let leapyear := (n1 =? 3) && (negb (n4 =? 24) || (n100 =? 3)) in
    let month := Z.shiftr (n + 50) 5 in
    let preceding :=
      days_before_month month + b2z ((2 <? month) && leapyear) in
    if n <? preceding then
      let month := month - 1 in
      let preceding :=
        preceding - (days_in_month month + b2z ((month =? 2) && leapyear)) in
      (year, month, n - preceding + 1)
    else (year, month, n - preceding + 1).

Definition digit (n : Z) : ascii := ascii_of_N (48 + Z.to_N (n mod 10)).

(** A number in two, and in four, decimal digits. *)
Definition pad2 (n : Z) : string :=
  String (digit (n / 10)) (String (digit n) "").

Definition pad4 (n : Z) : string :=
  String (digit (n / 1000)) (String (digit (n / 100)) (pad2 n)).

(** [d.strftime("%Y-%m-%d")], the year in four digits as the Python
    documentation gives it; a C library may print a year below 1000
    without its leading zeros, so nothing below relies on the digits of
    such a year. *)
Definition strftime_Ymd (d : Z) : string :=
  let '(y, m, dd) := ord2ymd d in
  (pad4 y ++ "-" ++ pad2 m ++ "-" ++ pad2 dd)%string.

End Datetime.

(* ------------------------------------------------------------------ *)
(** * [AdvancedEntityExtractor] *)

Module Extractor.

Import Re.

Definition weekdays : list string :=
  ["monday"; "tuesday"; "wednesday"; "thursday"; "friday"; "saturday"; "sunday"].

(** [r'next\s+(monday|tuesday|wednesday|thursday|friday|saturday|sunday)'] *)
Definition next_day_re : regex :=
  seqs [word "next"; Plus Chr.is_space; Group 1 (alts (map word weekdays))].

(** The [days] table of [parse_date]. *)
Definition days : Dict.dict Z :=
  [("monday", 0); ("tuesday", 1); ("wednesday", 2); ("thursday", 3);
   ("friday", 4); ("saturday", 5); ("sunday", 6)]%Z.

(** [days_ahead = days[target_day] - today.weekday() + 7] *)
Definition days_ahead (target today_weekday : Z) : Z :=
  (target - today_weekday + 7)%Z.

(** The body of the [try] of [parse_date]; [today] is the value of
    [datetime.now()]. *)
Definition parse_date_try (today : Z) (date_str : string) : result string :=
  tomorrow <- Datetime.add_days today 1 ;;
  yesterday <- Datetime.add_days today (-1) ;;
  let date_mapping : Dict.dict Z :=
    [("today", today); ("tomorrow", tomorrow); ("yesterday", yesterday)] in
  match re_match false next_day_re (lower date_str) with
  | Some next_day_match =>
      match group 1 next_day_match with
      | Some target_day =>
          target <- Dict.getitem days target_day ;;
          d <- Datetime.add_days today
                 (days_ahead target (Datetime.weekday today)) ;;
          Ok (Datetime.strftime_Ymd d)
      | None => Raise (KeyError "None")
      end
  | None =>
      match Dict.get date_mapping (lower date_str) with
      | Some d => Ok (Datetime.strftime_Ymd d)
      | None => Ok date_str
      end
  end.

(** [parse_date]: any exception of the body is caught and the input
    is returned. *)
Definition parse_date (today : Z) (date_str : string) : string :=
  match parse_date_try today date_str with
  | Ok parsed_date => parsed_date
  | Raise _ => date_str
  end.

(** [[self.parse_date(date) for date in date_matches]]; every call
    reads the clock again, [clock k] is the [k]-th reading. *)
Fixpoint parse_dates (clock : nat -> Z) (k : nat) (date_matches : list string)
    : list string :=
  match date_matches with
  | [] => []
  | date :: more => parse_date (clock k) date :: parse_dates clock (S k) more
  end.

(** [r'\b(?:today|tomorrow|yesterday)\b'] and
    [r'\bnext\s+(?:Monday|Tuesday|Wednesday|Thursday|Friday|Saturday|Sunday)\b'] *)
Definition date_patterns : list regex :=
  [ seqs [WordB; alts (map word ["today"; "tomorrow"; "yesterday"]); WordB];
    seqs [WordB; word "next"; Plus Chr.is_space;
          alts (map word ["Monday"; "Tuesday"; "Wednesday"; "Thursday";
                          "Friday"; "Saturday"; "Sunday"]);
          WordB] ].

Definition date_regex : regex := alts date_patterns.

Definition meridiem : regex := alts (map word ["am"; "pm"]).

(** [\d{1,2}] *)
Definition digits_1_2 : regex := Seq (Cls Chr.is_digit) (Opt (Cls Chr.is_digit)).

(** [r'\b\d{1,2}(?::\d{2})?\s*(?:am|pm)\b'] and [r'\b\d{1,2}\s*(?:am|pm)\b'] *)
Definition time_patterns : list regex :=
  [ seqs [WordB; digits_1_2;
          Opt (seqs [Lit ":"; Cls Chr.is_digit; Cls Chr.is_digit]);
          Star Chr.is_space; meridiem; WordB];
    seqs [WordB; digits_1_2; Star Chr.is_space; meridiem; WordB] ].

Definition time_regex : regex := alts time_patterns.

Definition minute_units : regex := alts (map word ["minute"; "min"; "mins"]).
Definition hour_units : regex := alts (map word ["hour"; "hr"; "hours"]).

(** The six duration patterns; their groups are numbered 1 to 6 in
    the joined pattern. *)
Definition duration_patterns : list regex :=
  [ seqs [WordB; Group 1 (Plus Chr.is_digit); Star Chr.is_space; minute_units; WordB];
    seqs [WordB; Group 2 (Plus Chr.is_digit); Star Chr.is_space; hour_units; WordB];
    seqs [WordB; word "for"; Plus Chr.is_space; Group 3 (Plus Chr.is_digit);
          Star Chr.is_space; minute_units; WordB];
    seqs [WordB; word "for"; Plus Chr.is_space; Group 4 (Plus Chr.is_digit);
          Star Chr.is_space; hour_units; WordB];
    seqs [WordB; Group 5 (Plus Chr.is_digit); alts (map word ["m"; "min"]); WordB];
    seqs [WordB; Group 6 (Plus Chr.is_digit); alts (map word ["h"; "hr"]); WordB] ].

Definition full_duration_pattern : regex := alts duration_patterns.

(** [r'(?:minute|min|mins|m)(?!\w)'] and [r'(?:hour|hr|hours|h)(?!\w)'] *)
Definition minute_mark : regex :=
  Seq (alts (map word ["minute"; "min"; "mins"; "m"])) (NotAhead Chr.is_word).
Definition hour_mark : regex :=
  Seq (alts (map word ["hour"; "hr"; "hours"; "h"])) (NotAhead Chr.is_word).

(** [r'\b[A-Z][a-z]+ (?:[A-Z][a-z]+)?\b'] *)
Definition name_pattern : regex :=
  seqs [WordB; Cls Chr.is_AZ; Plus Chr.is_az; Lit " ";
        Opt (Seq (Cls Chr.is_AZ) (Plus Chr.is_az)); WordB].

(** [next((m for m in match if m), None)] *)
Definition first_nonempty (tuple : list string) : option string :=
  find (fun m => negb (String.eqb m "")) tuple.

(** [f"{number}"] *)
Definition fmt (number : option string) : string :=
  match number with
  | Some n => n
  | None => "None"
  end.

(** The loop over [duration_matches]. *)
Fixpoint process_durations (text : string) (duration_matches : list (list string))
    : list string :=
  match duration_matches with
  | [] => []
  | tuple :: more =>
      let number := first_nonempty tuple in
      if found (search true minute_mark text) then
        (fmt number ++ " mins")%string :: process_durations text more
      else if found (search true hour_mark text) then
        (fmt number ++ " hours")%string :: process_durations text more
      else process_durations text more
  end.

(** An entity of [doc.ents]. *)
Record ent : Type := Ent { ent_text : string; label_ : string }.

(** [[ent.text for ent in doc.ents if ent.label_ == 'PERSON']] *)
Definition persons (ents : list ent) : list string :=
  map ent_text (filter (fun e => String.eqb (label_ e) "PERSON") ents).

Definition is_nil {A : Type} (l : list A) : bool :=
  match l with [] => true | _ => false end.

(** The attendees before the duplicates are removed. *)
Definition attendees_of (ents : list ent) (text : string) : list string :=
  let attendees := persons ents in
  if is_nil attendees then findall false name_pattern text else attendees.

Definition entities : Type := Dict.dict (list string).

Section WithPipeline.

(** [self.nlp]: the entities of a text, or an exception. *)
Variable nlp : string -> result (list ent).

(** The readings of [datetime.now()] during one call. *)
Variable clock : nat -> Z.

(** [extract_entities]; an exception of the body is logged and
    raised again. *)
Definition extract_entities (text : string) : result entities :=
  let entities : entities :=
    [("DATE", []); ("TIME", []); ("DURATION", []); ("ATTENDEE", [])] in
  doc_ents <- nlp text ;;
  let date_matches := findall true date_regex text in
  let entities := Dict.set entities "DATE" (parse_dates clock 0 date_matches) in
  let entities := Dict.set entities "TIME" (findall true time_regex text) in
  let duration_matches := findall_groups true 6 full_duration_pattern text in
  let processed_durations := process_durations text duration_matches in
  let entities := Dict.set entities "DURATION" processed_durations in
  let attendees := attendees_of doc_ents text in
  let entities :=
    Dict.set entities "ATTENDEE" (Dict.keys (Dict.fromkeys attendees)) in
  Ok entities.

End WithPipeline.

End Extractor.

(* ------------------------------------------------------------------ *)
(** * What a pattern matches

    [Sem.den ic r pv w nx g]: the text [w], standing between the
    character [pv] and the character [nx], is matched by [r], and the
    match captures the groups [g] (the last group first). *)

Module Sem.

Import Re.

(** Every character of [s] is in the class [p]. *)
Fixpoint all (p : ascii -> bool) (s : string) : bool :=
  match s with
  | EmptyString => true
  | String b s' => p b && all p s'
  end.

(** The character before the position reached after [w]. *)
Fixpoint lastc (pv : option ascii) (w : string) : option ascii :=
  match w with
  | EmptyString => pv
  | String b w' => lastc (Some b) w'
  end.

(** The character at a position followed by [w] and then [nx]. *)
Definition nextc (w : string) (nx : option ascii) : option ascii :=
  match w with
  | EmptyString => nx
  | String b _ => Some b
  end.

Fixpoint den (ic : bool) (r : regex) (pv : option ascii) (w : string)
    (nx : option ascii) (g : list (nat * string)) : Prop :=
  match r with
  | Eps => w = "" /\ g = []
  | Lit a => exists b, w = String b "" /\ lit_eq ic a b = true /\ g = []
  | Cls p => exists b, w = String b "" /\ p b = true /\ g = []
  | Seq r1 r2 =>
      exists w1 w2 g1 g2,
        w = (w1 ++ w2)%string /\ g = g2 ++ g1 /\
        den ic r1 pv w1 (nextc w2 nx) g1 /\
        den ic r2 (lastc pv w1) w2 nx g2
  | Alt r1 r2 => den ic r1 pv w nx g \/ den ic r2 pv w nx g
  | Opt r1 => den ic r1 pv w nx g \/ (w = "" /\ g = [])
  | Star p => all p w = true /\ g = []
  | Plus p => w <> "" /\ all p w = true /\ g = []
  | WordB => w = "" /\ g = [] /\ xorb (opt_word pv) (opt_word nx) = true
  | NotAhead p =>
      w = "" /\ g = [] /\
      match nx with Some b => p b = false | None => True end
  | Group n r1 => exists g1, den ic r1 pv w nx g1 /\ g = (n, w) :: g1
  end.

(** [m] is an occurrence of [r] in [text]: its text stands at its
    start position and is matched there, with its groups. *)
Definition occurs (ic : bool) (r : regex) (text : string) (m : rmatch) : Prop :=
  exists pre post,
    text = (pre ++ m_text m ++ post)%string /\
    m_start m = String.length pre /\
    den ic r (lastc None pre) (m_text m) (next post) (m_caps m).

(** The text [w] after [pv] ends with a match of [r]. *)
Definition ends_with (ic : bool) (r : regex) (pv : option ascii) (w : string)
    (nx : option ascii) : Prop :=
  exists w1 w2 g,
    w = (w1 ++ w2)%string /\ den ic r (lastc pv w1) w2 nx g.

(** [m2] starts where [m1] has ended, or later. *)
Definition before (m1 m2 : rmatch) : Prop :=
  m_start m1 + String.length (m_text m1) <= m_start m2.

End Sem.

(* ------------------------------------------------------------------ *)
(** * The notions the specification uses *)

Module Spec.

Import Re Sem Extractor.

(** The offset of [next <weekday>] in the words of the specification:
    [(target - current + 7) mod 7], and 7 when that is 0. *)
Definition next_occurrence_offset (target today_weekday : Z) : Z :=
  let d := ((target - today_weekday + 7) mod 7)%Z in
  if (d =? 0)%Z then 7%Z else d.

(** A date string of the form [next <weekday>], whatever the case of
    its letters: the word, white space, the name of the day, and
    anything after it. *)
Definition next_weekday_form (date_str day : string) : Prop :=
  exists gap tail,
    lower date_str = ("next" ++ gap ++ day ++ tail)%string /\
    gap <> "" /\ all Chr.is_space gap = true.

(** The relative-date literals and their offsets in days. *)
Definition literal_offsets : Dict.dict Z :=
  [("today", 0); ("tomorrow", 1); ("yesterday", -1)]%Z.

(** The shape [YYYY-MM-DD]. *)
Definition iso_shape (s : string) : bool :=
  match s with
  | String y1 (String y2 (String y3 (String y4 (String h1
      (String m1 (String m2 (String h2 (String d1 (String d2 "")))))))))
    => Chr.is_digit y1 && Chr.is_digit y2 && Chr.is_digit y3
       && Chr.is_digit y4 && Ascii.eqb h1 "-" && Chr.is_digit m1
       && Chr.is_digit m2 && Ascii.eqb h2 "-" && Chr.is_digit d1
       && Chr.is_digit d2
  | _ => false
  end.

Definition mem (x : string) (l : list string) : bool :=
  existsb (String.eqb x) l.

(** A list reduced to the first occurrences of its elements: an
    element is kept where no earlier element ([seen]) equals it. *)
Fixpoint first_occurrences (seen l : list string) : list string :=
  match l with
  | [] => []
  | x :: l' =>
      if mem x seen then first_occurrences seen l'
      else x :: first_occurrences (seen ++ [x]) l'
  end.

(** A clock time [H[:MM] am|pm]: one or two digits, optionally a colon
    and two digits, optional white space, and [am] or [pm] in any
    case. *)
Definition clock_time_form (t : string) : Prop :=
  exists hour minutes gap meridiem,
    t = (hour ++ minutes ++ gap ++ meridiem)%string /\
    (String.length hour = 1 \/ String.length hour = 2) /\
    all Chr.is_digit hour = true /\
    (minutes = "" \/
     exists mm, minutes = String ":" mm /\ String.length mm = 2 /\
                all Chr.is_digit mm = true) /\
    all Chr.is_space gap = true /\
    (lower meridiem = "am" \/ lower meridiem = "pm").

(** The number of a duration match, as the loop of [extract_entities]
    formats it. *)
Definition duration_number (m : rmatch) : string :=
  fmt (first_nonempty (groups 6 m)).

(** A string of one or more digits. *)
Definition digit_string (n : string) : Prop :=
  n <> ""%string /\ all Chr.is_digit n = true.

(** The matches [ms] are occurrences of [r] in [text], from left to
    right and without overlap. *)
Definition in_text_order (ic : bool) (r : regex) (text : string)
    (ms : list rmatch) : Prop :=
  StronglySorted before ms /\ Forall (occurs ic r text) ms.

(** The words that indicate minutes, and hours. *)
Definition minute_words : list string := ["minute"; "min"; "mins"; "m"].
Definition hour_words : list string := ["hour"; "hr"; "hours"; "h"].

(** The text contains one of the words [us], in any letter case, and no
    word character follows it. *)
Definition has_unit_word (us : list string) (text : string) : Prop :=
  exists pre u post,
    text = (pre ++ u ++ post)%string /\ In (lower u) us /\
    opt_word (next post) = false.

(** A capitalized word: a letter of [A-Z] and one or more of [a-z]. *)
Definition capitalized_word (x : string) : Prop :=
  exists c tail,
    x = String c tail /\ Chr.is_AZ c = true /\
    tail <> ""%string /\ all Chr.is_az tail = true.

(** [sub] stands somewhere in [text]. *)
Definition substring_of (sub text : string) : Prop :=
  exists pre post, text = (pre ++ sub ++ post)%string.

End Spec.

(* ------------------------------------------------------------------ *)
(** * What the interactive tool needs of Python: [str.strip], [repr]
      and [str] of an exception *)

Module Py.

(** A line feed. *)
Definition nl : string := String (ascii_of_N 10) "".

(** [s.lstrip()], [s.rstrip()] and [s.strip()]: the white space of
    [str.isspace] is taken off the ends. *)
Fixpoint lstrip (s : string) : string :=
  match s with
  | EmptyString => EmptyString
  | String c s' => if Chr.is_space c then lstrip s' else s
  end.

Fixpoint rstrip (s : string) : string :=
  match s with
  | EmptyString => EmptyString
  | String c s' =>
      match rstrip s' with
      | EmptyString => if Chr.is_space c then EmptyString else String c EmptyString
      | r => String c r
      end
  end.

Definition strip (s : string) : string := rstrip (lstrip s).

(** [str.isprintable] on one character of 0..255. *)
Definition is_printable (c : ascii) : bool :=
  Chr.between 32 126 c || Chr.between 161 172 c || Chr.between 174 255 c.

Fixpoint contains (a : ascii) (s : string) : bool :=
  match s with
  | EmptyString => false
  | String c s' => Ascii.eqb a c || contains a s'
  end.

Definition hex_digit (n : N) : ascii :=
  if (n <? 10)%N then ascii_of_N (48 + n) else ascii_of_N (87 + n).

(** [\xhh] *)
Definition hex_escape (c : ascii) : string :=
  String "\" (String "x" (String (hex_digit (Chr.code c / 16))
                            (String (hex_digit (Chr.code c mod 16)) ""))).

(** One character of [repr(s)], [quote] being the quote chosen. *)
Definition repr_char (quote c : ascii) : string :=
  if Ascii.eqb c quote || Ascii.eqb c "\" then String "\" (String c "")
  else if Chr.is_code 9 c then "\t"
  else if Chr.is_code 10 c then "\n"
  else if Chr.is_code 13 c then "\r"
  else if is_printable c then String c ""
  else hex_escape c.

Fixpoint repr_body (quote : ascii) (s : string) : string :=
  match s with
  | EmptyString => EmptyString
  | String c s' => (repr_char quote c ++ repr_body quote s')%string
  end.

(** The single and the double quote. *)
Definition squote : ascii := ascii_of_N 39.
Definition dquote : ascii := ascii_of_N 34.

(** [repr(s)] of a [str]: in single quotes, or in double quotes when the
    string holds a single quote and no double quote. *)
Definition repr_str (s : string) : string :=
  let quote : ascii :=
    if contains squote s && negb (contains dquote s) then dquote else squote in
  (String quote (repr_body quote s) ++ String quote "")%string.

(** [', '.join(items)] *)
Fixpoint join_comma (items : list string) : string :=
  match items with
  | [] => EmptyString
  | [x] => x
  | x :: more => (x ++ ", " ++ join_comma more)%string
  end.

(** [str(values)] of a list of [str]. *)
Definition repr_list (values : list string) : string :=
  ("[" ++ join_comma (map repr_str values) ++ "]")%string.

(** [str(e)] of an exception. *)
Definition exn_str (e : exn) : string :=
  match e with
  | OverflowError => "date value out of range"
  | KeyError k => repr_str k
  | OtherError msg => msg
  end.

End Py.

(* ------------------------------------------------------------------ *)
(** * [interactive_extractor] and [main]

    The session is embedded by what it reads and what it writes to the
    standard output: [input] takes the next event of a list (a line, or
    an interrupt from the keyboard; the end of the list is the end of
    the input), [print] and the prompt of [input] add to the output.
    [setup_logger] is taken to have returned the path [log_file], and
    what the handlers of the logger write is left out. *)

Module Repl.

Import Extractor Py.

Inductive input_event : Type :=
| Line (s : string)       (* a line typed by the user *)
| Interrupt.              (* KeyboardInterrupt while waiting *)

Inductive output : Type :=
| Print (s : string)      (* print(s) *)
| Prompt (s : string).    (* the prompt written by input(s) *)

(** The loop over [results.items()]. *)
Definition print_results (results : entities) : list output :=
  Print (nl ++ "Extracted Entities:") ::
  map (fun item : string * list string =>
         let (category, values) := item in
         if is_nil values
         then Print ("  " ++ category ++ ": None")
         else Print ("  " ++ category ++ ": " ++ repr_list values))%string
      results.

(** The inner [try] of the loop: the entities are printed, or the
    exception of [extract_entities] is reported. *)
Definition respond (nlp : string -> result (list ent)) (clock : nat -> Z)
    (text : string) : list output :=
  match extract_entities nlp clock text with
  | Ok results => print_results results
  | Raise e => [Print ("An error occurred: " ++ exn_str e)%string]
  end.

(** [text.lower() == 'exit'] *)
Definition is_exit (text : string) : bool := String.eqb (lower text) "exit".

(** The [while True] loop from its [n]-th round on; [clock n] gives the
    readings of the clock during round [n]. The end of the input raises
    [EOFError] in [input], which the outer handler reports. *)
Fixpoint loop (nlp : string -> result (list ent)) (clock : nat -> nat -> Z)
    (n : nat) (inputs : list input_event) : list output :=
  Prompt (nl ++ "Enter text: ") ::
  match inputs with
  | [] => [Print "A critical error occurred: EOF when reading a line"]
  | Interrupt :: _ => [Print (nl ++ "Operation cancelled by user.")]
  | Line line :: rest =>
      let text := strip line in
      if is_exit text then [Print "Exiting..."]
      else respond nlp (clock n) text ++ loop nlp clock (S n) rest
  end.

(** [interactive_extractor]; [load] is what [spacy.load] gives when the
    extractor is built: the pipeline, or an exception that the outer
    handler reports. *)
Definition interactive_extractor (load : result (string -> result (list ent)))
    (clock : nat -> nat -> Z) (log_file : string) (inputs : list input_event)
    : list output :=
  match load with
  | Raise e => [Print ("A critical error occurred: " ++ exn_str e)%string]
  | Ok nlp =>
      [Print "Advanced Entity Extraction Tool";
       Print "Enter text to extract entities. Type 'exit' to quit.";
       Print ("Logging to: " ++ log_file)%string]
      ++ loop nlp clock 0 inputs
  end.

(** [main]: the note on the libraries, then the session. *)
Definition main (load : result (string -> result (list ent)))
    (clock : nat -> nat -> Z) (log_file : string) (inputs : list input_event)
    : list output :=
  Print (nl ++ "Before running, install required libraries:" ++ nl
         ++ "pip install spacy" ++ nl
         ++ "python -m spacy download en_core_web_trf" ++ nl)%string
  :: interactive_extractor load clock log_file inputs.

End Repl.

(* ------------------------------------------------------------------ *)
(** * Notions for the properties of the whole code *)

Module SpecMore.

Import Re Sem Extractor Py Repl.

(** A reading of the clock from which every date of [parse_date] can be
    computed and has a year of four digits. *)
Definition clock_in_range (today : Z) : Prop :=
  (Datetime.ord_1000_01_01 < today /\ today + 13 <= Datetime.max_ord)%Z.

(** What a session prints for the lines [ls], none of which ends it,
    from round [n] on. *)
Fixpoint answers (nlp : string -> result (list ent)) (clock : nat -> nat -> Z)
    (n : nat) (ls : list string) : list output :=
  match ls with
  | [] => []
  | l :: ls' =>
      Prompt (nl ++ "Enter text: ")
      :: respond nlp (clock n) (strip l) ++ answers nlp clock (S n) ls'
  end.

(** How the values of a category are shown. *)
Definition show_values (values : list string) : string :=
  if is_nil values then "None" else repr_list values.

(** The text of a printed line. *)
Definition printed (o : output) : string :=
  match o with Print s => s | Prompt s => s end.

(** The line feed character. *)
Definition line_feed : ascii := ascii_of_N 10.

End SpecMore.

(* ================================================================== *)
(** * Properties *)

(** ** Strings *)

Lemma append_nil_r (s : string) : (s ++ "")%string = s.
Proof. induction s as [|a s IH]; simpl; congruence. Qed.

Lemma append_assoc (s1 s2 s3 : string) :
  ((s1 ++ s2) ++ s3)%string = (s1 ++ (s2 ++ s3))%string.
Proof. induction s1 as [|a s1 IH]; simpl; congruence. Qed.

Lemma length_append (s1 s2 : string) :
  String.length (s1 ++ s2) = String.length s1 + String.length s2.
Proof. induction s1 as [|a s1 IH]; simpl; congruence. Qed.

Lemma take_append (w s : string) :
  take (String.length (w ++ s) - String.length s) (w ++ s) = w.
Proof.
  rewrite length_append.
  replace (String.length w + String.length s - String.length s)
    with (String.length w) by lia.
  induction w as [|a w IH]; simpl.
  - destruct s; reflexivity.
  - now rewrite IH.
Qed.

Module SemFacts.

Import Re Sem.

Lemma lastc_append (pv : option ascii) (w1 w2 : string) :
  lastc pv (w1 ++ w2) = lastc (lastc pv w1) w2.
Proof. revert pv. induction w1 as [|a w1 IH]; intro pv; simpl; auto. Qed.

Lemma next_append (w s : string) : next (w ++ s) = nextc w (next s).
Proof. destruct w; reflexivity. Qed.

Lemma run_seq ic r1 r2 c :
  run ic (Seq r1 r2) c = flat_map (run ic r2) (run ic r1 c).
Proof. reflexivity. Qed.

Lemma run_group ic n r c :
  run ic (Group n r) c =
  map (fun c' => Cfg ((n, consumed c c') :: caps c') (prev c') (rest c'))
    (run ic r c).
Proof. reflexivity. Qed.

(** *** The ways to run [p*] *)

Lemma star_sound (p : ascii -> bool) g pv s c' :
  In c' (star p g pv s) ->
  exists w, s = (w ++ rest c')%string /\ prev c' = lastc pv w /\
            caps c' = g /\ all p w = true.
Proof.
  revert pv. induction s as [|b s IH]; intro pv; simpl.
  - intros [<-|[]]. now exists "".
  - destruct (p b) eqn:Hb.
    + intro H. apply in_app_or in H. destruct H as [H|[<-|[]]].
      * destruct (IH _ H) as (w & -> & E2 & E3 & E4).
        exists (String b w). simpl. now rewrite Hb, E4.
      * now exists "".
    + intros [<-|[]]. now exists "".
Qed.

Lemma star_complete (p : ascii -> bool) g pv w s :
  all p w = true -> In (Cfg g (lastc pv w) s) (star p g pv (w ++ s)).
Proof.
  revert pv. induction w as [|b w IH]; intros pv H; simpl in *.
  - destruct s as [|a s]; simpl; auto.
    destruct (p a); [apply in_or_app; right|]; simpl; auto.
  - apply andb_true_iff in H. destruct H as [Hb H]. rewrite Hb.
    apply in_or_app. left. now apply IH.
Qed.

(** *** The matcher finds what the pattern denotes, and nothing else *)

Theorem run_sound (ic : bool) (r : regex) : forall c c',
  In c' (run ic r c) ->
  exists w g,
    rest c = (w ++ rest c')%string /\ prev c' = lastc (prev c) w /\
    caps c' = g ++ caps c /\ den ic r (prev c) w (next (rest c')) g.
Proof.
  induction r as [|a|p|r1 IH1 r2 IH2|r1 IH1 r2 IH2|r1 IH1|p|p| |p|n r1 IH1];
    intros c c' H; simpl in H.
  - destruct H as [<-|[]]. exists "", []. simpl. auto.
  - destruct (rest c) as [|b s] eqn:E; [easy|].
    destruct (lit_eq ic a b) eqn:L; [|easy].
    destruct H as [<-|[]]. exists (String b ""), []. simpl.
    repeat split; eauto.
  - destruct (rest c) as [|b s] eqn:E; [easy|].
    destruct (p b) eqn:L; [|easy].
    destruct H as [<-|[]]. exists (String b ""), []. simpl.
    repeat split; eauto.
  - apply in_flat_map in H. destruct H as (c1 & H1 & H2).
    destruct (IH1 _ _ H1) as (w1 & g1 & E1 & P1 & G1 & D1).
    destruct (IH2 _ _ H2) as (w2 & g2 & E2 & P2 & G2 & D2).
    exists (w1 ++ w2)%string, (g2 ++ g1). repeat split.
    + now rewrite E1, E2, append_assoc.
    + now rewrite P2, P1, lastc_append.
    + now rewrite G2, G1, app_assoc.
    + simpl. exists w1, w2, g1, g2. repeat split; auto.
      * now rewrite <- next_append, <- E2.
      * now rewrite <- P1.
  - apply in_app_or in H. destruct H as [H|H].
    + destruct (IH1 _ _ H) as (w & g & ? & ? & ? & ?).
      exists w, g. simpl. auto.
    + destruct (IH2 _ _ H) as (w & g & ? & ? & ? & ?).
      exists w, g. simpl. auto.
  - apply in_app_or in H. destruct H as [H|[<-|[]]].
    + destruct (IH1 _ _ H) as (w & g & ? & ? & ? & ?).
      exists w, g. simpl. auto.
    + exists "", []. simpl. auto 6.
  - apply star_sound in H. destruct H as (w & E & P & G & A).
    exists w, []. simpl. auto.
  - destruct (rest c) as [|b s] eqn:E; [easy|].
    destruct (p b) eqn:L; [|easy].
    apply star_sound in H. destruct H as (w & -> & P & G & A).
    exists (String b w), []. simpl. rewrite L, A. repeat split; auto.
    discriminate.
  - destruct (at_boundary c) eqn:B; [|easy].
    destruct H as [<-|[]]. exists "", []. simpl. auto 6.
  - destruct (rest c) as [|b s] eqn:E.
    + destruct H as [<-|[]]. exists "", []. simpl. rewrite E. simpl. auto 6.
    + destruct (p b) eqn:L; [easy|].
      destruct H as [<-|[]]. exists "", []. simpl. rewrite E. simpl. auto 6.
  - apply in_map_iff in H. destruct H as (c1 & <- & H).
    destruct (IH1 _ _ H) as (w & g & E & P & G & D).
    exists w, ((n, w) :: g). simpl. repeat split; auto.
    + unfold consumed. rewrite E, take_append, G. reflexivity.
    + exists g. auto.
Qed.

Theorem run_complete (ic : bool) (r : regex) : forall g0 pv w s g,
  den ic r pv w (next s) g ->
  In (Cfg (g ++ g0) (lastc pv w) s) (run ic r (Cfg g0 pv (w ++ s))).
Proof.
  induction r as [|a|p|r1 IH1 r2 IH2|r1 IH1 r2 IH2|r1 IH1|p|p| |p|n r1 IH1];
    intros g0 pv w s g D; simpl in D.
  - destruct D as [-> ->]. simpl. auto.
  - destruct D as (b & -> & L & ->). simpl. rewrite L. simpl. auto.
  - destruct D as (b & -> & L & ->). simpl. rewrite L. simpl. auto.
  - destruct D as (w1 & w2 & g1 & g2 & -> & -> & D1 & D2).
    simpl. apply in_flat_map.
    exists (Cfg (g1 ++ g0) (lastc pv w1) (w2 ++ s)). split.
    + rewrite append_assoc. apply IH1. now rewrite next_append.
    + rewrite lastc_append, <- app_assoc. now apply IH2.
  - simpl. apply in_or_app. destruct D as [D|D]; auto.
  - simpl. apply in_or_app. destruct D as [D|[-> ->]]; auto.
    right. simpl. auto.
  - destruct D as [A ->]. simpl. now apply star_complete.
  - destruct D as (N & A & ->). destruct w as [|b w]; [easy|].
    simpl in *. apply andb_true_iff in A. destruct A as [Hb A].
    rewrite Hb. now apply star_complete.
  - destruct D as (-> & -> & B). simpl. unfold at_boundary. simpl.
    rewrite B. simpl. auto.
  - destruct D as (-> & -> & B). simpl.
    destruct s as [|b s]; simpl in *; [auto|]. rewrite B. simpl. auto.
  - destruct D as (g1 & D & ->). simpl. apply in_map_iff.
    exists (Cfg (g1 ++ g0) (lastc pv w) s). split.
    + simpl. unfold consumed. simpl. now rewrite take_append.
    + now apply IH1.
Qed.

End SemFacts.

(** ** Matching at a position, searching and scanning *)

Module ScanFacts.

Import Re Sem SemFacts.

Lemma match_at_sound ic r pos pv s m :
  match_at ic r pos pv s = Some m ->
  exists post,
    s = (m_text m ++ post)%string /\ m_start m = pos /\
    den ic r pv (m_text m) (next post) (m_caps m).
Proof.
  unfold match_at. destruct (run ic r (Cfg [] pv s)) as [|c' l] eqn:E; [easy|].
  intros [= <-].
  destruct (run_sound ic r (Cfg [] pv s) c') as (w & g & Hr & _ & Hg & D).
  { rewrite E. now left. }
  simpl in *. exists (rest c'). unfold consumed. simpl.
  subst s. rewrite take_append, Hg, app_nil_r. auto.
Qed.

Lemma match_at_complete ic r pos pv w post g :
  den ic r pv w (next post) g ->
  match_at ic r pos pv (w ++ post) <> None.
Proof.
  intro D. apply (run_complete ic r [] pv w post g) in D.
  unfold match_at. destruct (run ic r (Cfg [] pv (w ++ post))); easy.
Qed.

(** Stepping over one character of the text. *)
Lemma step_prefix (pre : string) (b : ascii) (s : string) :
  (pre ++ String b s)%string = ((pre ++ String b "") ++ s)%string /\
  String.length (pre ++ String b "") = S (String.length pre) /\
  lastc None (pre ++ String b "") = Some b.
Proof.
  rewrite append_assoc, length_append, lastc_append. simpl.
  repeat split. lia.
Qed.

(** [re.search] succeeds when the pattern occurs anywhere. *)
Lemma search_from_complete ic r w post g : forall pre pos pv0,
  den ic r (lastc pv0 pre) w (next post) g ->
  found (search_from ic r pos pv0 (pre ++ w ++ post)) = true.
Proof.
  induction pre as [|b pre IH]; intros pos pv0 D; simpl in D.
  - simpl.
    assert (N := match_at_complete ic r pos pv0 w post g D).
    destruct (w ++ post)%string; simpl;
      destruct (match_at ic r pos pv0 _); simpl; congruence.
  - simpl. destruct (match_at ic r pos pv0 _); simpl; [reflexivity|].
    now apply IH.
Qed.

Lemma search_complete ic r text m :
  occurs ic r text m -> found (search ic r text) = true.
Proof.
  intros (pre & post & -> & _ & D). unfold search.
  eapply search_from_complete. eassumption.
Qed.

Lemma search_from_sound ic r : forall s pre m,
  search_from ic r (String.length pre) (lastc None pre) s = Some m ->
  occurs ic r (pre ++ s) m.
Proof.
  induction s as [|b s IH]; intros pre m; simpl.
  - destruct (match_at ic r _ _ "") as [m'|] eqn:E; [|easy].
    intros [= ->]. apply match_at_sound in E.
    destruct E as (post & E1 & E2 & D). exists pre, post. now rewrite <- E1.
  - destruct (match_at ic r _ _ (String b s)) as [m'|] eqn:E.
    + intros [= ->]. apply match_at_sound in E.
      destruct E as (post & E1 & E2 & D). exists pre, post. now rewrite <- E1.
    + intro H. destruct (step_prefix pre b s) as (E1 & E2 & E3).
      rewrite E1. apply IH. now rewrite E2, E3.
Qed.

Lemma search_sound ic r text m :
  search ic r text = Some m -> occurs ic r text m.
Proof. intro H. now apply (search_from_sound ic r text "" m). Qed.

(** Every match of the scan is an occurrence of the pattern, past the
    characters the scan had to skip. *)
Lemma scan_occurs ic r : forall s pre skip m,
  In m (scan ic r skip (String.length pre) (lastc None pre) s) ->
  occurs ic r (pre ++ s) m /\ String.length pre + skip <= m_start m.
Proof.
  induction s as [|b s IH]; intros pre skip m; simpl.
  - destruct skip as [|k]; [|easy].
    destruct (match_at ic r _ _ "") as [m'|] eqn:E; [|easy].
    intros [<-|[]]. apply match_at_sound in E.
    destruct E as (post & E1 & E2 & D). split; [|lia].
    exists pre, post. now rewrite <- E1.
  - destruct (step_prefix pre b s) as (E1 & E2 & E3).
    destruct skip as [|k].
    + destruct (match_at ic r _ _ (String b s)) as [m'|] eqn:E.
      * intros [<-|H].
        -- apply match_at_sound in E.
           destruct E as (post & F1 & F2 & D). split; [|lia].
           exists pre, post. now rewrite <- F1.
        -- rewrite <- E2, <- E3 in H. apply IH in H. rewrite <- E1 in H.
           destruct H as [H1 H2]. split; [exact H1|]. rewrite E2 in H2. lia.
      * intro H. rewrite <- E2, <- E3 in H. apply IH in H. rewrite <- E1 in H.
        destruct H as [H1 H2]. split; [exact H1|]. rewrite E2 in H2. lia.
    + intro H. rewrite <- E2, <- E3 in H. apply IH in H. rewrite <- E1 in H.
      destruct H as [H1 H2]. split; [exact H1|]. rewrite E2 in H2. lia.
Qed.

(** The matches of the scan come in the order of the text and do not
    overlap. *)
Lemma scan_sorted ic r : forall s pre skip,
  StronglySorted before
    (scan ic r skip (String.length pre) (lastc None pre) s).
Proof.
  induction s as [|b s IH]; intros pre skip; simpl.
  - destruct skip as [|k]; [|constructor].
    destruct (match_at ic r _ _ ""); repeat constructor.
  - destruct (step_prefix pre b s) as (E1 & E2 & E3).
    destruct skip as [|k].
    + destruct (match_at ic r _ _ (String b s)) as [m'|] eqn:E.
      * apply match_at_sound in E. destruct E as (post & F1 & F2 & D).
        rewrite <- E2, <- E3. constructor; [apply IH|].
        apply Forall_forall. intros m H. apply scan_occurs in H.
        destruct H as [_ H]. unfold before. rewrite E2 in H. lia.
      * rewrite <- E2, <- E3. apply IH.
    + rewrite <- E2, <- E3. apply IH.
Qed.

Theorem finditer_occurs ic r text m :
  In m (finditer ic r text) -> occurs ic r text m.
Proof. intro H. now apply (scan_occurs ic r text "" 0 m). Qed.

Theorem finditer_sorted ic r text :
  StronglySorted before (finditer ic r text).
Proof. apply (scan_sorted ic r text "" 0). Qed.

End ScanFacts.

(** ** Characters and literal words *)

Module PatternFacts.

Import Re Sem SemFacts.

(** Only the colon has the lower case of the colon. *)
Lemma lower_colon (b : ascii) : Chr.lower b = ":"%char -> b = ":"%char.
Proof.
  destruct b as [[] [] [] [] [] [] [] []]; vm_compute; intro H;
    solve [reflexivity | discriminate H].
Qed.

(** A character whose lower case is one of [a-z] is a word character. *)
Lemma lower_az_word (b : ascii) :
  Chr.is_az (Chr.lower b) = true -> Chr.is_word b = true.
Proof.
  destruct b as [[] [] [] [] [] [] [] []]; vm_compute; intro H;
    solve [reflexivity | discriminate H].
Qed.

Lemma lower_append (w1 w2 : string) :
  lower (w1 ++ w2) = (lower w1 ++ lower w2)%string.
Proof. induction w1 as [|a w1 IH]; simpl; congruence. Qed.

Lemma all_lower_az_word (w : string) :
  all Chr.is_az (lower w) = true -> all Chr.is_word w = true.
Proof.
  induction w as [|b w IH]; simpl; [reflexivity|].
  intro H. apply andb_true_iff in H. destruct H as [H1 H2].
  now rewrite (lower_az_word b H1), IH.
Qed.

Lemma lastc_word (w : string) : forall pv,
  w <> ""%string -> all Chr.is_word w = true -> opt_word (lastc pv w) = true.
Proof.
  induction w as [|b w IH]; intros pv N A; [easy|].
  simpl in *. apply andb_true_iff in A. destruct A as [Hb A].
  destruct w as [|b' w]; [exact Hb|]. apply IH; [discriminate|exact A].
Qed.

(** What a literal word matches: itself, or under [re.IGNORECASE] the
    texts with the same lower case; it captures nothing. *)
Lemma den_word ic (u : string) : forall pv w nx g,
  den ic (word u) pv w nx g ->
  g = [] /\ (if ic then lower w = lower u else w = u).
Proof.
  induction u as [|a u IH]; intros pv w nx g D; simpl in D.
  - destruct D as [-> ->]. now destruct ic.
  - destruct D as (w1 & w2 & g1 & g2 & -> & -> & (b & -> & L & ->) & D2).
    apply IH in D2. destruct D2 as [-> E]. split; [reflexivity|].
    unfold lit_eq in L. destruct ic; apply Ascii.eqb_eq in L; simpl;
      congruence.
Qed.

Lemma chr_lower_lower (b : ascii) : Chr.lower (Chr.lower b) = Chr.lower b.
Proof. destruct b as [[] [] [] [] [] [] [] []]; reflexivity. Qed.

Lemma lower_lower (w : string) : lower (lower w) = lower w.
Proof.
  induction w as [|b w IH]; simpl; [reflexivity|].
  now rewrite chr_lower_lower, IH.
Qed.

(** Under [re.IGNORECASE] a literal word matches every text with its
    lower case. *)
Lemma den_word_intro (u : string) : forall pv w nx,
  lower w = lower u -> den true (word u) pv w nx [].
Proof.
  induction u as [|a u IH]; intros pv w nx E; destruct w as [|b w];
    simpl in E; try discriminate.
  - now split.
  - injection E as Eb Ew. simpl.
    exists (String b ""), w, [], []. repeat split.
    + exists b. repeat split. unfold lit_eq. rewrite Eb. apply Ascii.eqb_refl.
    + now apply IH.
Qed.

Lemma den_word_length ic (u : string) : forall pv w nx g,
  den ic (word u) pv w nx g -> String.length w = String.length u.
Proof.
  induction u as [|a u IH]; intros pv w nx g D; simpl in D.
  - now destruct D as [-> _].
  - destruct D as (w1 & w2 & g1 & g2 & -> & -> & (b & -> & _) & D2).
    simpl. f_equal. eapply IH. eassumption.
Qed.

(** What an alternation matches: what one of its branches matches. *)
Lemma den_alts ic (rs : list regex) pv w nx g :
  rs <> [] -> den ic (alts rs) pv w nx g ->
  exists r, In r rs /\ den ic r pv w nx g.
Proof.
  induction rs as [|r rs IH]; intros N D; [easy|].
  destruct rs as [|r' rs].
  - exists r. simpl in *. auto.
  - change (alts (r :: r' :: rs)) with (Alt r (alts (r' :: rs))) in D.
    destruct D as [D|D].
    + exists r. simpl. auto.
    + destruct (IH ltac:(discriminate) D) as (r0 & I & D0).
      exists r0. split; [now right|exact D0].
Qed.

Lemma den_alts_intro ic (rs : list regex) r pv w nx g :
  In r rs -> den ic r pv w nx g -> den ic (alts rs) pv w nx g.
Proof.
  induction rs as [|r1 rs IH]; intros I D; [easy|].
  destruct rs as [|r' rs].
  - destruct I as [->|[]]. exact D.
  - change (alts (r1 :: r' :: rs)) with (Alt r1 (alts (r' :: rs))).
    destruct I as [->|I]; [now left|right; now apply IH].
Qed.

(** An alternation of literal words. *)
Lemma den_alts_words ic (us : list string) pv w nx g :
  us <> [] -> den ic (alts (map word us)) pv w nx g ->
  exists u, In u us /\ den ic (word u) pv w nx g.
Proof.
  intros N D. apply den_alts in D; [|now destruct us].
  destruct D as (r & I & D). apply in_map_iff in I.
  destruct I as (u & <- & I). eauto.
Qed.

End PatternFacts.

(** ** [parse_date] *)

Module ParseDateFacts.

Import Re Sem SemFacts PatternFacts Extractor Spec.
Local Open Scope Z_scope.

(** The weekday of a date is one of 0..6. *)
Lemma weekday_range (d : Z) : 0 <= Datetime.weekday d <= 6.
Proof. unfold Datetime.weekday. pose proof (Z.mod_pos_bound (d + 6) 7). lia. Qed.

(** The names of the [days] table. *)
Lemma days_inv (day : string) (target : Z) :
  Dict.get days day = Some target ->
  In (day, target) days /\ 0 <= target <= 6.
Proof.
  unfold days. cbn [Dict.get].
  repeat (match goal with
          | |- context [String.eqb ?a day] =>
              destruct (String.eqb_spec a day) as [<-|_]
          end;
          [intros [= <-]; split; [simpl; tauto | lia] | ]).
  discriminate.
Qed.

Lemma add_days_ok (d n : Z) :
  Datetime.min_ord <= d + n <= Datetime.max_ord ->
  Datetime.add_days d n = Ok (d + n).
Proof.
  intro H. unfold Datetime.add_days, Datetime.valid.
  destruct (Z.leb_spec Datetime.min_ord (d + n)); [|lia].
  destruct (Z.leb_spec (d + n) Datetime.max_ord); [reflexivity|lia].
Qed.

(** A literal word run on a text that starts with it. *)
Lemma run_word (w : string) : forall g pv s,
  run false (word w) (Cfg g pv (w ++ s)) = [Cfg g (lastc pv w) s].
Proof.
  induction w as [|a w IH]; intros g pv s; simpl; [reflexivity|].
  unfold lit_eq. rewrite Ascii.eqb_refl. simpl. rewrite IH. reflexivity.
Qed.

(** The first way to run [p+]: all the characters of the class. *)
Lemma star_head (p : ascii -> bool) g (gap s : string) : forall pv,
  all p gap = true ->
  match next s with Some b => p b = false | None => True end ->
  exists l, star p g pv (gap ++ s) = Cfg g (lastc pv gap) s :: l.
Proof.
  induction gap as [|a gap IH]; intros pv A N; simpl in *.
  - destruct s as [|b s]; simpl in *; [now exists []|].
    rewrite N. now exists [].
  - apply andb_true_iff in A. destruct A as [Ha A]. rewrite Ha.
    destruct (IH (Some a) A N) as (l & ->). simpl. eauto.
Qed.

Lemma plus_head ic (p : ascii -> bool) g pv (gap s : string) :
  gap <> "" -> all p gap = true ->
  match next s with Some b => p b = false | None => True end ->
  exists l, run ic (Plus p) (Cfg g pv (gap ++ s)) = Cfg g (lastc pv gap) s :: l.
Proof.
  intros NE A N. destruct gap as [|a gap]; [easy|]. simpl in *.
  apply andb_true_iff in A. destruct A as [Ha A]. rewrite Ha.
  now apply star_head.
Qed.

(** The pattern of [parse_date] on a string of the form
    [next <weekday>]: it matches, and its group is the weekday. *)
Lemma next_day_match (gap day tail : string) (target : Z) :
  gap <> "" -> all Chr.is_space gap = true ->
  Dict.get days day = Some target ->
  exists m,
    re_match false next_day_re ("next" ++ gap ++ day ++ tail) = Some m /\
    group 1 m = Some day.
Proof.
  intros NE A D. apply days_inv in D. destruct D as [D _].
  unfold re_match, match_at, next_day_re.
  change (seqs [word "next"; Plus Chr.is_space; Group 1 (alts (map word weekdays))])
    with (Seq (word "next")
            (Seq (Plus Chr.is_space) (Group 1 (alts (map word weekdays))))).
  rewrite run_seq, (run_word "next"). cbn [flat_map]. rewrite app_nil_r.
  rewrite run_seq.
  assert (N : match next (day ++ tail) with
              | Some b => Chr.is_space b = false
              | None => True
              end).
  { simpl in D. decompose [or] D; try easy;
      match goal with H : (_, _) = (_, _) |- _ => injection H as <- _ end;
      reflexivity. }
  destruct (plus_head false Chr.is_space [] (lastc None "next") gap
              (day ++ tail) NE A N) as (l & ->).
  cbn [flat_map]. rewrite run_group.
  assert (R : exists pv,
             run false (alts (map word weekdays))
               (Cfg [] (lastc (lastc None "next") gap) (day ++ tail))
             = [Cfg [] pv tail]).
  { simpl in D. decompose [or] D; try easy;
      match goal with H : (_, _) = (_, _) |- _ => injection H as <- _ end;
      eexists; vm_compute; reflexivity. }
  destruct R as (pv & ->). cbn [map app caps prev rest].
  eexists. split; [reflexivity|].
  unfold group, consumed. cbn [m_caps lookup Nat.eqb rest].
  now rewrite take_append.
Qed.

(** Conversely, the pattern matches only strings of that form. *)
Lemma next_day_match_inv (s : string) (m : rmatch) :
  re_match false next_day_re s = Some m ->
  exists gap day tail,
    s = ("next" ++ gap ++ day ++ tail)%string /\
    gap <> ""%string /\ all Chr.is_space gap = true /\ In day weekdays.
Proof.
  intro H. apply ScanFacts.match_at_sound in H.
  destruct H as (tail & -> & _ & D).
  destruct D as (w1 & w2 & g1 & g2 & -> & _ & D1 & D).
  destruct D as (gap & w3 & gg & g3 & -> & _ & (N & A & _) & (g4 & D & _)).
  apply den_word in D1. destruct D1 as [_ ->].
  apply den_alts_words in D; [|discriminate].
  destruct D as (day & I & D). apply den_word in D. destruct D as [_ ->].
  exists gap, day, tail. rewrite !append_assoc. auto.
Qed.

(** The strings of the form [next <weekday>] are those the pattern of
    [parse_date] matches. *)
Lemma next_weekday_form_iff (date_str : string) :
  (exists day, In day weekdays /\ next_weekday_form date_str day) <->
  re_match false next_day_re (lower date_str) <> None.
Proof.
  split.
  - intros (day & I & gap & tail & E & N & A).
    assert (D : exists target, Dict.get days day = Some target).
    { simpl in I. decompose [or] I; try easy; subst day; eexists; reflexivity. }
    destruct D as (target & D).
    destruct (next_day_match gap day tail target N A D) as (m & M & _).
    rewrite E, M. discriminate.
  - destruct (re_match false next_day_re (lower date_str)) as [m|] eqn:M;
      [intros _|easy].
    apply next_day_match_inv in M.
    destruct M as (gap & day & tail & E & N & A & I).
    exists day. split; [exact I|]. now exists gap, tail.
Qed.

(** When no date of the mapping is out of range, the body of the
    [try] comes to the two tests of the input. *)
Lemma parse_date_try_in_range (today : Z) (date_str : string) :
  1 < today < Datetime.max_ord ->
  parse_date_try today date_str =
  match re_match false next_day_re (lower date_str) with
  | Some next_day_match =>
      match group 1 next_day_match with
      | Some target_day =>
          target <- Dict.getitem days target_day ;;
          d <- Datetime.add_days today
                 (days_ahead target (Datetime.weekday today)) ;;
          Ok (Datetime.strftime_Ymd d)
      | None => Raise (KeyError "None")
      end
  | None =>
      match Dict.get [("today", today); ("tomorrow", today + 1);
                      ("yesterday", today + -1)] (lower date_str) with
      | Some d => Ok (Datetime.strftime_Ymd d)
      | None => Ok date_str
      end
  end.
Proof.
  intro R. unfold parse_date_try.
  rewrite !add_days_ok by (unfold Datetime.min_ord, Datetime.max_ord in *; lia).
  reflexivity.
Qed.

Lemma digit_is_digit (n : Z) : Chr.is_digit (Datetime.digit n) = true.
Proof.
  unfold Datetime.digit. pose proof (Z.mod_pos_bound n 10 eq_refl) as B.
  assert (E : n mod 10 = 0 \/ n mod 10 = 1 \/ n mod 10 = 2 \/ n mod 10 = 3 \/
              n mod 10 = 4 \/ n mod 10 = 5 \/ n mod 10 = 6 \/ n mod 10 = 7 \/
              n mod 10 = 8 \/ n mod 10 = 9) by lia.
  decompose [or] E; clear E;
    match goal with H : _ mod 10 = _ |- _ => rewrite H end; reflexivity.
Qed.

(** A formatted date of a year of four digits has the shape
    [YYYY-MM-DD]. *)
Lemma strftime_shape (d : Z) :
  Datetime.ord_1000_01_01 <= d -> iso_shape (Datetime.strftime_Ymd d) = true.
Proof.
  intros _. unfold Datetime.strftime_Ymd.
  destruct (Datetime.ord2ymd d) as [[y m] dd].
  unfold Datetime.pad4, Datetime.pad2. cbn [append iso_shape].
  rewrite !digit_is_digit. reflexivity.
Qed.

Lemma offsets_agree (target wd : Z) :
  0 <= target <= 6 -> 0 <= wd <= 6 ->
  (target <= wd -> days_ahead target wd = next_occurrence_offset target wd) /\
  (wd < target -> days_ahead target wd = next_occurrence_offset target wd + 7).
Proof.
  intros Ht Hw. unfold days_ahead, next_occurrence_offset.
  assert (T : target = 0 \/ target = 1 \/ target = 2 \/ target = 3 \/
              target = 4 \/ target = 5 \/ target = 6) by lia.
  assert (W : wd = 0 \/ wd = 1 \/ wd = 2 \/ wd = 3 \/
              wd = 4 \/ wd = 5 \/ wd = 6) by lia.
  decompose [or] T; decompose [or] W; subst; vm_compute; split; intro;
    congruence.
Qed.

(** C1, as the code has it: for every date string of the form
    [next <weekday>] the returned date is the current date plus
    [target_weekday_index - current_weekday_index + 7] days, without a
    modulo. That offset is the one the specification words
    ([(target - current + 7) mod 7], 7 for 0) when the target index is
    not above the current one, and 7 days more than it otherwise; on
    the target weekday itself it is 7. *)
Theorem parse_date_next_weekday (today : Z) (date_str day : string) (target : Z) :
  next_weekday_form date_str day ->
  Dict.get days day = Some target ->
  1 < today -> today + 13 <= Datetime.max_ord ->
  let wd := Datetime.weekday today in
  parse_date today date_str
    = Datetime.strftime_Ymd (today + days_ahead target wd) /\
  (target <= wd -> days_ahead target wd = next_occurrence_offset target wd) /\
  (wd < target -> days_ahead target wd = next_occurrence_offset target wd + 7) /\
  (target = wd -> days_ahead target wd = 7).
Proof.
  intros (gap & tail & E & NE & A) D Lo Hi wd.
  pose proof (weekday_range today) as W. fold wd in W.
  destruct (days_inv day target D) as [_ T].
  split; [|repeat split; try (now apply offsets_agree);
           unfold days_ahead; lia].
  unfold parse_date. rewrite parse_date_try_in_range by lia. rewrite E.
  destruct (next_day_match gap day tail target NE A D) as (m & -> & ->).
  unfold Dict.getitem. rewrite D. cbn [bind]. fold wd.
  rewrite add_days_ok; [reflexivity|].
  unfold days_ahead, Datetime.min_ord. lia.
Qed.

Lemma parse_date_next_weekday_witness :
  next_weekday_form "Next  Friday" "friday" /\
  parse_date 738886 "Next  Friday" = "2024-01-12"%string.
Proof.
  assert (F : next_weekday_form "Next  Friday" "friday").
  { exists "  "%string, ""%string. repeat split. discriminate. }
  split; [exact F|].
  assert (Hi : 738886 + 13 <= Datetime.max_ord) by (vm_compute; discriminate).
  exact (proj1 (parse_date_next_weekday 738886 "Next  Friday" "friday" 4
                  F eq_refl eq_refl Hi)).
Defined.

(** C1 fails as the specification words it: on Monday 2024-01-01
    (ordinal 738886) [next tuesday] is 2024-01-09, eight days ahead,
    where the formula of the specification gives the offset 1. *)
Lemma next_tuesday_on_monday :
  Datetime.strftime_Ymd 738886 = "2024-01-01"%string /\
  Datetime.weekday 738886 = 0 /\
  Dict.get days "tuesday" = Some 1 /\
  next_occurrence_offset 1 (Datetime.weekday 738886) = 1 /\
  parse_date 738886 "next tuesday" = "2024-01-09"%string /\
  parse_date 738886 "next tuesday"
    <> Datetime.strftime_Ymd
         (738886 + next_occurrence_offset 1 (Datetime.weekday 738886)).
Proof. vm_compute. repeat split. discriminate. Qed.

(** C2, as the code has it: the offset [target - current + 7] of a
    [next <weekday>] expression lies between 1 and 13; it is at least 7
    exactly when the index of the target weekday is not below that of
    the current weekday; for [next monday] on a Sunday it is 1. *)
Theorem days_ahead_range (today : Z) (day : string) (target : Z) :
  Dict.get days day = Some target ->
  let offset := days_ahead target (Datetime.weekday today) in
  1 <= offset <= 13 /\
  (7 <= offset <-> Datetime.weekday today <= target) /\
  (target = 0 -> Datetime.weekday today = 6 -> offset = 1).
Proof.
  intros D offset. subst offset. unfold days_ahead.
  destruct (days_inv day target D) as [_ T].
  pose proof (weekday_range today). lia.
Qed.

Lemma days_ahead_range_witness :
  1 <= days_ahead 0 (Datetime.weekday 738892) <= 13 /\
  (7 <= days_ahead 0 (Datetime.weekday 738892)
   <-> Datetime.weekday 738892 <= 0) /\
  (0 = 0 -> Datetime.weekday 738892 = 6 ->
   days_ahead 0 (Datetime.weekday 738892) = 1).
Proof. exact (days_ahead_range 738892 "monday" 0 eq_refl). Defined.

(** C2 fails as stated: on Sunday 2024-01-07 (ordinal 738892) the
    offset computed for [next monday] is 1, which is less than 7, and
    the date returned is the next day. *)
Lemma next_monday_on_sunday :
  Datetime.strftime_Ymd 738892 = "2024-01-07"%string /\
  Datetime.weekday 738892 = 6 /\
  Dict.get days "monday" = Some 0 /\
  days_ahead 0 (Datetime.weekday 738892) = 1 /\
  parse_date 738892 "next monday" = "2024-01-08"%string.
Proof. vm_compute. repeat split. Qed.

(** The literals of [literal_offsets]. *)
Lemma literal_inv (s : string) (k : Z) :
  Dict.get literal_offsets s = Some k ->
  (s = "today"%string /\ k = 0) \/ (s = "tomorrow"%string /\ k = 1) \/
  (s = "yesterday"%string /\ k = -1).
Proof.
  unfold literal_offsets. cbn [Dict.get].
  repeat (match goal with
          | |- context [String.eqb ?a s] =>
              destruct (String.eqb_spec a s) as [<-|_]
          end;
          [intros [= <-]; tauto | ]).
  discriminate.
Qed.

(** C6: for the literals [today], [tomorrow] and [yesterday], in any
    letter case, [parse_date] returns the current date plus 0, +1 or -1
    days, formatted with [%Y-%m-%d], which for a year of four digits is
    the shape [YYYY-MM-DD]. The clock is not on the first or the last
    day [datetime] can represent. *)
Theorem parse_date_literal (today : Z) (date_str : string) (k : Z) :
  Dict.get literal_offsets (lower date_str) = Some k ->
  1 < today < Datetime.max_ord ->
  parse_date today date_str = Datetime.strftime_Ymd (today + k) /\
  (Datetime.ord_1000_01_01 <= today + k ->
   iso_shape (parse_date today date_str) = true).
Proof.
  intros L R.
  assert (E : parse_date today date_str = Datetime.strftime_Ymd (today + k)).
  { unfold parse_date. rewrite parse_date_try_in_range by exact R.
    apply literal_inv in L.
    destruct L as [[-> ->]|[[-> ->]|[-> ->]]];
      match goal with
      | |- context [re_match false next_day_re ?s] =>
          replace (re_match false next_day_re s) with (@None rmatch)
            by (vm_compute; reflexivity)
      end; cbn [Dict.get String.eqb Ascii.eqb Bool.eqb];
      rewrite ?Z.add_0_r; reflexivity. }
  split; [exact E|]. rewrite E. apply strftime_shape.
Qed.

Lemma parse_date_literal_witness :
  parse_date 738886 "ToMorrow" = "2024-01-02"%string /\
  iso_shape (parse_date 738886 "ToMorrow") = true.
Proof.
  assert (R : 1 < 738886 < Datetime.max_ord) by (split; reflexivity).
  assert (Y : Datetime.ord_1000_01_01 <= 738886 + 1)
    by (vm_compute; discriminate).
  destruct (parse_date_literal 738886 "ToMorrow" 1 eq_refl R) as [E S].
  exact (conj E (S Y)).
Defined.

(** C7: a string that has not the form [next <weekday>] and is none of
    the three literals, whatever its letter case, is returned unchanged,
    and so is any string when the body of [parse_date] raises;
    [parse_date] is a total function to strings, it raises nothing. *)
Theorem parse_date_passthrough (today : Z) (date_str : string) :
  ((forall day, In day weekdays -> ~ next_weekday_form date_str day) /\
   Dict.get literal_offsets (lower date_str) = None) \/
  (exists e, parse_date_try today date_str = Raise e) ->
  parse_date today date_str = date_str.
Proof.
  intros [[F L]|[e E]]; unfold parse_date; [|now rewrite E].
  assert (M : re_match false next_day_re (lower date_str) = None).
  { destruct (re_match false next_day_re (lower date_str)) eqn:M;
      [exfalso|reflexivity].
    assert (N : re_match false next_day_re (lower date_str) <> None)
      by (rewrite M; discriminate).
    apply next_weekday_form_iff in N. destruct N as (day & I & N).
    exact (F day I N). }
  unfold parse_date_try.
  destruct (Datetime.add_days today 1) as [tomorrow|]; [|reflexivity].
  destruct (Datetime.add_days today (-1)) as [yesterday|]; [|reflexivity].
  cbn [bind]. rewrite M.
  revert L. unfold literal_offsets. cbn [Dict.get].
  destruct (String.eqb "today" (lower date_str)); [discriminate|].
  destruct (String.eqb "tomorrow" (lower date_str)); [discriminate|].
  destruct (String.eqb "yesterday" (lower date_str)); [discriminate|].
  reflexivity.
Qed.

Lemma parse_date_passthrough_witness :
  parse_date 738886 "Next week" = "Next week"%string.
Proof.
  apply parse_date_passthrough. left. split; [|reflexivity].
  intros day I F.
  apply (proj1 (next_weekday_form_iff "Next week")); [|reflexivity].
  exists day. split; assumption.
Defined.

(** On the last day of [datetime] the mapping of the literals cannot be
    built: the body raises and the input comes back. *)
Lemma parse_date_on_last_day :
  parse_date_try Datetime.max_ord "today" = Raise OverflowError /\
  parse_date Datetime.max_ord "today" = "today"%string.
Proof. split; reflexivity. Qed.

End ParseDateFacts.


(** ** Removing duplicates with a dictionary *)

Module DictFacts.

Import Spec.

Lemma mem_In (x : string) (l : list string) : mem x l = true <-> In x l.
Proof.
  unfold mem. rewrite existsb_exists. split.
  - intros (y & H & E). apply String.eqb_eq in E. now subst.
  - intro H. exists x. split; [exact H|apply String.eqb_refl].
Qed.

(** Assigning to a key adds it at the end, unless it is there. *)
Lemma keys_set {V : Type} (d : Dict.dict V) (k : string) (v : V) :
  Dict.keys (Dict.set d k v)
  = if mem k (Dict.keys d) then Dict.keys d else Dict.keys d ++ [k].
Proof.
  induction d as [|[k' v'] d IH]; simpl; [reflexivity|].
  rewrite (String.eqb_sym k k').
  destruct (String.eqb_spec k' k) as [->|N]; simpl; [reflexivity|].
  rewrite IH. now destruct (mem k (Dict.keys d)).
Qed.

Lemma keys_fold (l : list string) : forall d : Dict.dict unit,
  Dict.keys (fold_left (fun d k => Dict.set d k tt) l d)
  = Dict.keys d ++ first_occurrences (Dict.keys d) l.
Proof.
  induction l as [|x l IH]; intro d; simpl.
  - now rewrite app_nil_r.
  - rewrite IH, keys_set. destruct (mem x (Dict.keys d)); [reflexivity|].
    now rewrite <- app_assoc.
Qed.

(** [list(dict.fromkeys(l))] is [l] reduced to first occurrences. *)
Lemma keys_fromkeys (l : list string) :
  Dict.keys (Dict.fromkeys l) = first_occurrences [] l.
Proof. unfold Dict.fromkeys. now rewrite keys_fold. Qed.

Lemma first_occurrences_In (l : list string) : forall seen x,
  In x (first_occurrences seen l) <-> In x l /\ ~ In x seen.
Proof.
  induction l as [|y l IH]; intros seen x; simpl; [tauto|].
  destruct (mem y seen) eqn:M.
  - apply mem_In in M. rewrite IH. split; [tauto|].
    intros [[->|H] N]; tauto.
  - assert (N : ~ In y seen) by (rewrite <- mem_In; congruence).
    simpl. rewrite IH, in_app_iff. simpl. split.
    + intros [->|[H1 H2]]; tauto.
    + intros [[->|H1] H2]; [tauto|].
      destruct (string_dec y x) as [->|D]; tauto.
Qed.

Lemma first_occurrences_NoDup (l : list string) : forall seen,
  NoDup (first_occurrences seen l).
Proof.
  induction l as [|y l IH]; intro seen; simpl; [constructor|].
  destruct (mem y seen); [apply IH|].
  constructor; [|apply IH].
  rewrite first_occurrences_In, in_app_iff. simpl. tauto.
Qed.

Lemma NoDup_count_one (l : list string) (x : string) :
  NoDup l -> In x l -> count_occ string_dec l x = 1.
Proof.
  intros N H. apply (proj1 (NoDup_count_occ string_dec l)) with (x := x) in N.
  apply (proj1 (count_occ_In string_dec l x)) in H. lia.
Qed.

End DictFacts.

(** ** [extract_entities] *)

Module ExtractFacts.

Import Re Sem SemFacts ScanFacts PatternFacts Extractor Spec DictFacts.

(** What [extract_entities] returns: it raises what the pipeline raises,
    and otherwise returns the four lists under their keys. *)
Lemma extract_entities_eq nlp clock text :
  extract_entities nlp clock text =
  match nlp text with
  | Ok ents =>
      Ok [("DATE", parse_dates clock 0 (findall true date_regex text));
          ("TIME", findall true time_regex text);
          ("DURATION",
           process_durations text
             (findall_groups true 6 full_duration_pattern text));
          ("ATTENDEE", Dict.keys (Dict.fromkeys (attendees_of ents text)))]
  | Raise e => Raise e
  end.
Proof. unfold extract_entities. destruct (nlp text); reflexivity. Qed.

(** C3: whatever the text, the mapping [extract_entities] returns has
    exactly the keys DATE, TIME, DURATION and ATTENDEE, each bound to a
    list; for the empty text, on which the pipeline finds no person,
    the four lists are empty. The call returns whenever the pipeline
    does. *)
Theorem extract_entities_keys nlp clock text ents :
  nlp text = Ok ents ->
  exists e,
    extract_entities nlp clock text = Ok e /\
    Dict.keys e = ["DATE"; "TIME"; "DURATION"; "ATTENDEE"]%string /\
    (text = ""%string -> persons ents = [] ->
     e = [("DATE", []); ("TIME", []); ("DURATION", []); ("ATTENDEE", [])]%string).
Proof.
  intro H. rewrite extract_entities_eq, H. eexists. split; [reflexivity|].
  split; [reflexivity|].
  intros -> P. unfold attendees_of. rewrite P. reflexivity.
Qed.

Lemma extract_entities_keys_witness :
  exists e,
    extract_entities (fun _ => Ok []) (fun _ => 738886%Z) "" = Ok e /\
    Dict.keys e = ["DATE"; "TIME"; "DURATION"; "ATTENDEE"]%string /\
    (""%string = ""%string -> persons [] = [] ->
     e = [("DATE", []); ("TIME", []); ("DURATION", []); ("ATTENDEE", [])]%string).
Proof.
  exact (extract_entities_keys (fun _ => Ok []) (fun _ => 738886%Z) "" []
           eq_refl).
Defined.

(** C8: the ATTENDEE list has no duplicates: it is the list of the
    attendees found, reduced to the first occurrence of each string, in
    the order of those first occurrences; so a name found twice, such as
    Jane Doe, is there once. *)
Theorem attendees_deduplicated nlp clock text e :
  extract_entities nlp clock text = Ok e ->
  exists ents attendees,
    nlp text = Ok ents /\
    Dict.get e "ATTENDEE" = Some attendees /\
    attendees = first_occurrences [] (attendees_of ents text) /\
    NoDup attendees /\
    (forall a, In a attendees <-> In a (attendees_of ents text)) /\
    (In "Jane Doe"%string (attendees_of ents text) ->
     count_occ string_dec attendees "Jane Doe" = 1).
Proof.
  rewrite extract_entities_eq. destruct (nlp text) as [ents|]; [|discriminate].
  intros [= <-]. exists ents, (Dict.keys (Dict.fromkeys (attendees_of ents text))).
  rewrite keys_fromkeys.
  assert (I : forall a, In a (first_occurrences [] (attendees_of ents text))
                        <-> In a (attendees_of ents text)).
  { intro a. rewrite first_occurrences_In. simpl. tauto. }
  repeat split; try apply I; try tauto.
  - apply first_occurrences_NoDup.
  - intro H. apply NoDup_count_one; [apply first_occurrences_NoDup|now apply I].
Qed.

Lemma attendees_deduplicated_witness :
  exists ents attendees,
    Ok [] = Ok ents /\
    Dict.get
      [("DATE", []); ("TIME", []); ("DURATION", []);
       ("ATTENDEE", ["Jane Doe"])]%string "ATTENDEE"
    = Some attendees /\
    attendees
    = first_occurrences [] (attendees_of ents "Jane Doe met Jane Doe") /\
    NoDup attendees /\
    (forall a, In a attendees
               <-> In a (attendees_of ents "Jane Doe met Jane Doe")) /\
    (In "Jane Doe"%string (attendees_of ents "Jane Doe met Jane Doe") ->
     count_occ string_dec attendees "Jane Doe" = 1).
Proof.
  exact (attendees_deduplicated (fun _ => Ok []) (fun _ => 738886%Z)
           "Jane Doe met Jane Doe" _ eq_refl).
Defined.

(** A text that names Jane Doe twice, the pipeline finding no person:
    the heuristic finds the name twice and one entry is kept. *)
Lemma jane_doe_twice :
  findall false name_pattern "Jane Doe met Jane Doe"
  = ["Jane Doe"; "Jane Doe"]%string /\
  extract_entities (fun _ => Ok []) (fun _ => 738886%Z) "Jane Doe met Jane Doe"
  = Ok [("DATE", []); ("TIME", []); ("DURATION", []);
        ("ATTENDEE", ["Jane Doe"])]%string.
Proof. split; vm_compute; reflexivity. Qed.

(** C5 on the code: with no person from the pipeline, the heuristic
    pattern finds nothing in the text [Jane], a lone capitalized word,
    because the pattern asks for a space after the first word; in
    [Jane went home] it finds the word with that space. *)
Lemma lone_capitalized_word_not_matched :
  findall false name_pattern "Jane" = [] /\
  extract_entities (fun _ => Ok []) (fun _ => 738886%Z) "Jane"
  = Ok [("DATE", []); ("TIME", []); ("DURATION", []); ("ATTENDEE", [])]%string /\
  findall false name_pattern "Jane went home" = ["Jane "]%string /\
  findall false name_pattern "Jane Doe" = ["Jane Doe"]%string.
Proof. repeat split; vm_compute; reflexivity. Qed.

(** *** Clock times *)

Lemma den_digits_1_2 pv w nx g :
  den true digits_1_2 pv w nx g ->
  g = [] /\ (String.length w = 1 \/ String.length w = 2) /\
  all Chr.is_digit w = true.
Proof.
  intros (w1 & w2 & g1 & g2 & -> & -> & (b & -> & B & ->) & D).
  destruct D as [(b' & -> & B' & ->)|[-> ->]]; simpl; rewrite B, ?B'; auto.
Qed.

Lemma den_meridiem pv w nx g :
  den true meridiem pv w nx g ->
  g = [] /\ (lower w = "am"%string \/ lower w = "pm"%string).
Proof.
  intro D. apply den_alts_words in D; [|discriminate].
  destruct D as (u & I & D). apply den_word in D. destruct D as [-> E].
  split; [reflexivity|].
  destruct I as [<-|[<-|[]]]; [left|right]; exact E.
Qed.

(** What the time pattern matches is a clock time. *)
Lemma time_regex_form pv w nx g :
  den true time_regex pv w nx g -> clock_time_form w.
Proof.
  intros [D|D].
  - destruct D as (w0 & w1 & g0 & g1 & -> & -> & (-> & -> & _) & D).
    destruct D as (hour & w2 & gh & g2 & -> & -> & H & D).
    destruct D as (minutes & w3 & gm & g3 & -> & -> & M & D).
    destruct D as (gap & w4 & gg & g4 & -> & -> & (G & ->) & D).
    destruct D as (mer & w5 & ga & g5 & -> & -> & A & (-> & -> & _)).
    apply den_digits_1_2 in H. destruct H as (-> & HL & HD).
    apply den_meridiem in A. destruct A as (-> & AM).
    exists hour, minutes, gap, mer. rewrite append_nil_r.
    repeat split; auto.
    destruct M as [M|[-> ->]]; [right|now left].
    destruct M as (c & m2 & gc & g6 & -> & -> & (b & -> & L & ->) & M).
    destruct M as (d1 & d2 & gd1 & gd2 & -> & -> & (b1 & -> & B1 & ->)
                   & (b2 & -> & B2 & ->)).
    unfold lit_eq in L. apply Ascii.eqb_eq in L. symmetry in L.
    apply lower_colon in L. subst b.
    exists (String b1 (String b2 "")). simpl. rewrite B1, B2. auto.
  - destruct D as (w0 & w1 & g0 & g1 & -> & -> & (-> & -> & _) & D).
    destruct D as (hour & w2 & gh & g2 & -> & -> & H & D).
    destruct D as (gap & w4 & gg & g4 & -> & -> & (G & ->) & D).
    destruct D as (mer & w5 & ga & g5 & -> & -> & A & (-> & -> & _)).
    apply den_digits_1_2 in H. destruct H as (-> & HL & HD).
    apply den_meridiem in A. destruct A as (-> & AM).
    exists hour, ""%string, gap, mer. rewrite append_nil_r.
    repeat split; auto.
Qed.

Lemma occurs_substring ic r text m :
  occurs ic r text m -> substring_of (m_text m) text.
Proof. intros (pre & post & E & _). now exists pre, post. Qed.

(** C9: every entry of the TIME list is a substring of the input, as it
    stands there, and has the form of a clock time: one or two digits,
    optionally a colon and two digits, optional white space, and am or
    pm in any letter case. *)
Theorem time_entries_literal nlp clock text e :
  extract_entities nlp clock text = Ok e ->
  exists times,
    Dict.get e "TIME" = Some times /\
    times = findall true time_regex text /\
    forall t, In t times ->
      substring_of t text /\ clock_time_form t /\
      exists m, occurs true time_regex text m /\ t = m_text m.
Proof.
  rewrite extract_entities_eq. destruct (nlp text) as [ents|]; [|discriminate].
  intros [= <-]. eexists. split; [reflexivity|]. split; [reflexivity|].
  intros t I. unfold findall in I. apply in_map_iff in I.
  destruct I as (m & <- & I). apply finditer_occurs in I.
  split; [now apply occurs_substring with (ic := true) (r := time_regex)|].
  split; [|now exists m].
  destruct I as (pre & post & _ & _ & D). now apply time_regex_form in D.
Qed.

Lemma time_entries_literal_witness :
  exists times,
    Dict.get
      [("DATE", []); ("TIME", ["3:30 PM"; "10am"]); ("DURATION", []);
       ("ATTENDEE", [])]%string "TIME" = Some times /\
    times = findall true time_regex "at 3:30 PM or 10am" /\
    forall t, In t times ->
      substring_of t "at 3:30 PM or 10am" /\ clock_time_form t /\
      exists m, occurs true time_regex "at 3:30 PM or 10am" m /\ t = m_text m.
Proof.
  exact (time_entries_literal (fun _ => Ok []) (fun _ => 738886%Z)
           "at 3:30 PM or 10am" _ eq_refl).
Defined.

(** *** Durations *)

Lemma ends_with_self ic r pv w nx g :
  den ic r pv w nx g -> ends_with ic r pv w nx.
Proof. intro D. now exists ""%string, w, g. Qed.

Lemma ends_with_prepend ic r pv w0 w nx :
  ends_with ic r (lastc pv w0) w nx -> ends_with ic r pv (w0 ++ w) nx.
Proof.
  intros (w1 & w2 & g & -> & D). exists (w0 ++ w1)%string, w2, g.
  now rewrite append_assoc, lastc_append.
Qed.

(** [re.search] finds a pattern that ends a part of the text. *)
Lemma ends_with_found ic r pre w post :
  ends_with ic r (lastc None pre) w (next post) ->
  found (search ic r (pre ++ w ++ post)) = true.
Proof.
  intros (w1 & w2 & g & -> & D). unfold search.
  rewrite append_assoc, <- (append_assoc pre w1).
  apply search_from_complete with (g := g). now rewrite lastc_append.
Qed.

(** The test for a unit of the loop succeeds exactly on the texts that
    contain one of its words with no word character after it. *)
Lemma unit_word_found (us : list string) (text : string) :
  us <> [] ->
  forallb (fun u => String.eqb (lower u) u) us = true ->
  found (search true (Seq (alts (map word us)) (NotAhead Chr.is_word)) text)
  = true <-> has_unit_word us text.
Proof.
  intros N L. rewrite forallb_forall in L. split.
  - destruct (search true _ text) as [m|] eqn:S; [intros _|discriminate].
    apply search_sound in S. destruct S as (pre & post & E & _ & D).
    destruct D as (w1 & w2 & g1 & g2 & Ew & _ & D & (-> & _ & NA)).
    simpl in D. apply den_alts_words in D; [|exact N].
    destruct D as (u & I & D). apply den_word in D. destruct D as [_ D].
    exists pre, w1, post. rewrite Ew, append_nil_r in E. split; [exact E|].
    split.
    + rewrite D. specialize (L u I). apply String.eqb_eq in L. now rewrite L.
    + destruct post as [|b post]; [reflexivity|exact NA].
  - intros (pre & u & post & -> & I & W). unfold search.
    apply search_from_complete with (g := []).
    exists u, ""%string, [], []. rewrite append_nil_r. repeat split.
    + simpl. apply den_alts_intro with (r := word (lower u)).
      * now apply in_map.
      * apply den_word_intro. now rewrite lower_lower.
    + destruct post as [|b post]; [exact Logic.I|exact W].
Qed.

(** A unit word of the list [us] before a word boundary is also a unit
    word of a longer list [us'] that no word character follows: what
    the duration patterns end with is what the unit tests look for. *)
Lemma unit_mark (us us' : list string) pv w nx g :
  us <> [] ->
  forallb (fun u => negb (String.eqb u "") && all Chr.is_az (lower u)
                    && mem u us') us = true ->
  den true (Seq (alts (map word us)) WordB) pv w nx g ->
  g = [] /\
  den true (Seq (alts (map word us')) (NotAhead Chr.is_word)) pv w nx [].
Proof.
  intros N F (w1 & w2 & g1 & g2 & -> & -> & D & (-> & -> & B)).
  simpl in D. apply den_alts_words in D; [|exact N].
  destruct D as (u & I & D).
  rewrite forallb_forall in F. specialize (F u I).
  apply andb_true_iff in F. destruct F as [F M].
  apply andb_true_iff in F. destruct F as [NE A].
  apply mem_In in M.
  destruct (den_word true u pv w1 nx g1 D) as [-> E].
  assert (W : opt_word (lastc pv w1) = true).
  { apply lastc_word.
    - intros ->. destruct u; simpl in *; discriminate.
    - apply all_lower_az_word. now rewrite E. }
  rewrite W in B. split; [reflexivity|].
  exists w1, ""%string, [], []. repeat split.
  - simpl. apply den_alts_intro with (r := word u); [|exact D].
    now apply in_map.
  - destruct nx as [b|]; [|exact Logic.I]. simpl in B.
    now destruct (Chr.is_word b).
Qed.

Lemma den_number i pv w nx g :
  den true (Group i (Plus Chr.is_digit)) pv w nx g ->
  g = [(i, w)] /\ digit_string w.
Proof. intros (g1 & (N & A & ->) & ->). now repeat split. Qed.

(** What the duration pattern matches: it captures one group, a string
    of digits, and ends with a unit word that the test for minutes or
    the test for hours finds. *)
Lemma duration_den pv w nx g :
  den true full_duration_pattern pv w nx g ->
  (exists i n, g = [(i, n)] /\ In i (seq 1 6) /\ digit_string n /\
               substring_of n w) /\
  (ends_with true minute_mark pv w nx \/ ends_with true hour_mark pv w nx).
Proof.
  intro D.
  destruct D as [D|[D|[D|[D|[D|D]]]]].
  - destruct D as (w0 & w1 & g0 & g1 & -> & -> & (-> & -> & _) & D).
    destruct D as (n & w2 & gn & g2 & -> & -> & Hn & D).
    destruct D as (gap & w3 & gg & g3 & -> & -> & (_ & ->) & D).
    apply den_number in Hn. destruct Hn as [-> Hn].
    apply unit_mark with (us' := ["minute"; "min"; "mins"; "m"]%string) in D;
      [|discriminate|reflexivity].
    destruct D as [-> D]. split.
    + exists 1, n. simpl. split; [reflexivity|]. split; [tauto|].
      split; [exact Hn|now exists ""%string, (gap ++ w3)%string].
    + left. repeat apply ends_with_prepend. now apply ends_with_self in D.
  - destruct D as (w0 & w1 & g0 & g1 & -> & -> & (-> & -> & _) & D).
    destruct D as (n & w2 & gn & g2 & -> & -> & Hn & D).
    destruct D as (gap & w3 & gg & g3 & -> & -> & (_ & ->) & D).
    apply den_number in Hn. destruct Hn as [-> Hn].
    apply unit_mark with (us' := ["hour"; "hr"; "hours"; "h"]%string) in D;
      [|discriminate|reflexivity].
    destruct D as [-> D]. split.
    + exists 2, n. simpl. split; [reflexivity|]. split; [tauto|].
      split; [exact Hn|now exists ""%string, (gap ++ w3)%string].
    + right. repeat apply ends_with_prepend. now apply ends_with_self in D.
  - destruct D as (w0 & w1 & g0 & g1 & -> & -> & (-> & -> & _) & D).
    destruct D as (wf & w2 & gf & g2 & -> & -> & Hf & D).
    destruct D as (ws & w3 & gs & g3 & -> & -> & (_ & _ & ->) & D).
    destruct D as (n & w4 & gn & g4 & -> & -> & Hn & D).
    destruct D as (gap & w5 & gg & g5 & -> & -> & (_ & ->) & D).
    apply den_word in Hf. destruct Hf as [-> _].
    apply den_number in Hn. destruct Hn as [-> Hn].
    apply unit_mark with (us' := ["minute"; "min"; "mins"; "m"]%string) in D;
      [|discriminate|reflexivity].
    destruct D as [-> D]. split.
    + exists 3, n. simpl. split; [reflexivity|]. split; [tauto|].
      split; [exact Hn|exists (wf ++ ws)%string, (gap ++ w5)%string; simpl; now rewrite append_assoc].
    + left. repeat apply ends_with_prepend. now apply ends_with_self in D.
  - destruct D as (w0 & w1 & g0 & g1 & -> & -> & (-> & -> & _) & D).
    destruct D as (wf & w2 & gf & g2 & -> & -> & Hf & D).
    destruct D as (ws & w3 & gs & g3 & -> & -> & (_ & _ & ->) & D).
    destruct D as (n & w4 & gn & g4 & -> & -> & Hn & D).
    destruct D as (gap & w5 & gg & g5 & -> & -> & (_ & ->) & D).
    apply den_word in Hf. destruct Hf as [-> _].
    apply den_number in Hn. destruct Hn as [-> Hn].
    apply unit_mark with (us' := ["hour"; "hr"; "hours"; "h"]%string) in D;
      [|discriminate|reflexivity].
    destruct D as [-> D]. split.
    + exists 4, n. simpl. split; [reflexivity|]. split; [tauto|].
      split; [exact Hn|exists (wf ++ ws)%string, (gap ++ w5)%string; simpl; now rewrite append_assoc].
    + right. repeat apply ends_with_prepend. now apply ends_with_self in D.
  - destruct D as (w0 & w1 & g0 & g1 & -> & -> & (-> & -> & _) & D).
    destruct D as (n & w2 & gn & g2 & -> & -> & Hn & D).
    apply den_number in Hn. destruct Hn as [-> Hn].
    apply unit_mark with (us' := ["minute"; "min"; "mins"; "m"]%string) in D;
      [|discriminate|reflexivity].
    destruct D as [-> D]. split.
    + exists 5, n. simpl. split; [reflexivity|]. split; [tauto|].
      split; [exact Hn|now exists ""%string, w2].
    + left. repeat apply ends_with_prepend. now apply ends_with_self in D.
  - destruct D as (w0 & w1 & g0 & g1 & -> & -> & (-> & -> & _) & D).
    destruct D as (n & w2 & gn & g2 & -> & -> & Hn & D).
    apply den_number in Hn. destruct Hn as [-> Hn].
    apply unit_mark with (us' := ["hour"; "hr"; "hours"; "h"]%string) in D;
      [|discriminate|reflexivity].
    destruct D as [-> D]. split.
    + exists 6, n. simpl. split; [reflexivity|]. split; [tauto|].
      split; [exact Hn|now exists ""%string, w2].
    + right. repeat apply ends_with_prepend. now apply ends_with_self in D.
Qed.

(** The number of a duration match is the group it captured. *)
Lemma duration_number_eq m i n :
  m_caps m = [(i, n)] -> In i (seq 1 6) -> n <> ""%string ->
  duration_number m = n.
Proof.
  intros C I N. unfold duration_number, groups, group. rewrite C.
  destruct n as [|a n]; [easy|].
  simpl in I. decompose [or] I; try easy; subst i; reflexivity.
Qed.

Lemma finditer_duration_number text m :
  In m (finditer true full_duration_pattern text) ->
  digit_string (duration_number m) /\
  substring_of (duration_number m) (m_text m).
Proof.
  intro I. apply finditer_occurs in I.
  destruct I as (pre & post & _ & _ & D).
  apply duration_den in D. destruct D as [(i & n & C & I & Hn & S) _].
  rewrite (duration_number_eq m i n C I (proj1 Hn)). now split.
Qed.

(** A text with a duration match has a unit word that one of the two
    tests of the loop finds. *)
Lemma duration_unit_found text m :
  In m (finditer true full_duration_pattern text) ->
  found (search true minute_mark text) = true \/
  found (search true hour_mark text) = true.
Proof.
  intro I. apply finditer_occurs in I.
  destruct I as (pre & post & -> & _ & D).
  apply duration_den in D. destruct D as [_ [E|E]]; [left|right];
    now apply ends_with_found.
Qed.

(** The loop over the duration matches: one label for all of them. *)
Lemma process_durations_eq text tuples :
  process_durations text tuples =
  if found (search true minute_mark text) then
    map (fun t => (fmt (first_nonempty t) ++ " mins")%string) tuples
  else if found (search true hour_mark text) then
    map (fun t => (fmt (first_nonempty t) ++ " hours")%string) tuples
  else [].
Proof.
  induction tuples as [|t tuples IH]; simpl.
  - now destruct (found (search true minute_mark text)),
                 (found (search true hour_mark text)).
  - rewrite IH.
    now destruct (found (search true minute_mark text)),
                 (found (search true hour_mark text)).
Qed.

Lemma durations_labelled text (unit : string) :
  map (fun t => (fmt (first_nonempty t) ++ unit)%string)
    (findall_groups true 6 full_duration_pattern text)
  = map (fun m => (duration_number m ++ unit)%string)
      (finditer true full_duration_pattern text).
Proof. unfold findall_groups. now rewrite map_map. Qed.

(** C4: when the text contains a word for minutes and a word for
    hours (one of minute, min, mins, m and one of hour, hr, hours, h, in
    any letter case, with no word character after it), every duration
    match is labelled [<n> mins], [<n>] being the digits of the match:
    the test for minutes comes first and looks at the whole text. *)
Theorem minutes_take_priority nlp clock text e :
  extract_entities nlp clock text = Ok e ->
  has_unit_word minute_words text ->
  has_unit_word hour_words text ->
  Dict.get e "DURATION"
  = Some (map (fun m => (duration_number m ++ " mins")%string)
            (finditer true full_duration_pattern text)) /\
  Forall (fun m => digit_string (duration_number m) /\
                   substring_of (duration_number m) (m_text m))
    (finditer true full_duration_pattern text).
Proof.
  rewrite extract_entities_eq. destruct (nlp text) as [ents|]; [|discriminate].
  intros [= <-] M _. split.
  - apply (unit_word_found minute_words) in M; [|discriminate|reflexivity].
    change (found (search true minute_mark text) = true) in M.
    cbn [Dict.get String.eqb Ascii.eqb Bool.eqb].
    now rewrite process_durations_eq, M, durations_labelled.
  - apply Forall_forall. intros m I. now apply finditer_duration_number in I.
Qed.

Lemma minutes_take_priority_witness :
  Dict.get
    [("DATE", []); ("TIME", []); ("DURATION", ["30 mins"; "2 mins"]);
     ("ATTENDEE", [])]%string "DURATION"
  = Some (map (fun m => (duration_number m ++ " mins")%string)
            (finditer true full_duration_pattern "30 mins and 2 hours")) /\
  Forall (fun m => digit_string (duration_number m) /\
                   substring_of (duration_number m) (m_text m))
    (finditer true full_duration_pattern "30 mins and 2 hours").
Proof.
  assert (M : has_unit_word minute_words "30 mins and 2 hours").
  { exists "30 "%string, "mins"%string, " and 2 hours"%string.
    repeat split. simpl. tauto. }
  assert (H : has_unit_word hour_words "30 mins and 2 hours").
  { exists "30 mins and 2 "%string, "hours"%string, ""%string.
    repeat split. simpl. tauto. }
  exact (minutes_take_priority (fun _ => Ok []) (fun _ => 738886%Z)
           "30 mins and 2 hours" _ eq_refl M H).
Defined.

(** Thirty minutes and two hours: both numbers come out as minutes. *)
Lemma hours_labelled_as_minutes :
  extract_entities (fun _ => Ok []) (fun _ => 738886%Z) "30 mins and 2 hours"
  = Ok [("DATE", []); ("TIME", []); ("DURATION", ["30 mins"; "2 mins"]);
        ("ATTENDEE", [])]%string.
Proof. vm_compute. reflexivity. Qed.

Lemma parse_dates_length clock (l : list string) : forall k,
  length (parse_dates clock k l) = length l.
Proof. induction l as [|d l IH]; intro k; simpl; auto. Qed.

Lemma finditer_in_text_order ic r text :
  in_text_order ic r text (finditer ic r text).
Proof.
  split; [apply finditer_sorted|].
  apply Forall_forall. intros m I. now apply finditer_occurs.
Qed.

(** The [k]-th parsed date is the [k]-th date match, parsed at the
    [k]-th reading of the clock. *)
Lemma parse_dates_nth clock (l : list string) : forall k0 k w,
  nth_error l k = Some w ->
  nth_error (parse_dates clock k0 l) k = Some (parse_date (clock (k0 + k)) w).
Proof.
  induction l as [|d l IH]; intros k0 k w H; destruct k as [|k];
    simpl in *; try discriminate.
  - injection H as ->. now rewrite Nat.add_0_r.
  - rewrite Nat.add_succ_r. now apply (IH (S k0)).
Qed.

(** C10: the DATE, TIME and DURATION lists have one entry for each
    match of their pattern, in the order of the matches in the text,
    which is from left to right: the [k]-th DATE entry is [parse_date]
    of the text of the [k]-th date match, the [k]-th TIME entry the text
    of the [k]-th time match, the [k]-th DURATION entry the number of
    the [k]-th duration match with its label. Nothing removes an entry,
    so a phrase that stands twice in the text gives two entries. *)
Theorem matches_kept_in_order nlp clock text e :
  extract_entities nlp clock text = Ok e ->
  let dates := finditer true date_regex text in
  let times := finditer true time_regex text in
  let durations := finditer true full_duration_pattern text in
  in_text_order true date_regex text dates /\
  in_text_order true time_regex text times /\
  in_text_order true full_duration_pattern text durations /\
  (exists date_list,
     Dict.get e "DATE" = Some date_list /\
     length date_list = length dates /\
     forall k m, nth_error dates k = Some m ->
       nth_error date_list k = Some (parse_date (clock k) (m_text m))) /\
  (exists time_list,
     Dict.get e "TIME" = Some time_list /\
     time_list = map m_text times /\
     length time_list = length times /\
     forall k m, nth_error times k = Some m ->
       nth_error time_list k = Some (m_text m)) /\
  (exists unit duration_list,
     (unit = " mins"%string \/ unit = " hours"%string) /\
     Dict.get e "DURATION" = Some duration_list /\
     duration_list
     = map (fun m => (duration_number m ++ unit)%string) durations /\
     length duration_list = length durations /\
     forall k m, nth_error durations k = Some m ->
       nth_error duration_list k = Some (duration_number m ++ unit)%string) /\
  extract_entities (fun _ => Ok []) (fun _ => 738886%Z)
    "today 3pm 5 mins, tomorrow 4pm 6 mins, tomorrow 4pm 6 mins"
  = Ok [("DATE", ["2024-01-01"; "2024-01-02"; "2024-01-02"]);
        ("TIME", ["3pm"; "4pm"; "4pm"]);
        ("DURATION", ["5 mins"; "6 mins"; "6 mins"]);
        ("ATTENDEE", [])]%string.
Proof.
  rewrite extract_entities_eq. destruct (nlp text) as [ents|]; [|discriminate].
  intros [= <-] dates times durations.
  assert (NM : forall (A B : Type) (f : A -> B) (l : list A) k m,
             nth_error l k = Some m -> nth_error (map f l) k = Some (f m)).
  { intros A B f l k m H. now rewrite nth_error_map, H. }
  repeat (split; [apply finditer_in_text_order|]).
  split.
  { eexists. split; [reflexivity|].
    split; [rewrite parse_dates_length; unfold findall; apply length_map|].
    intros k m H. unfold findall. fold dates.
    apply (parse_dates_nth clock (map m_text dates) 0 k (m_text m)).
    now apply NM. }
  split.
  { eexists. split; [reflexivity|]. split; [reflexivity|].
    split; [apply length_map|]. intros k m H. now apply NM. }
  split; [|vm_compute; reflexivity].
  assert (U : exists unit,
             (unit = " mins"%string \/ unit = " hours"%string) /\
             process_durations text
               (findall_groups true 6 full_duration_pattern text)
             = map (fun m => (duration_number m ++ unit)%string) durations).
  { rewrite process_durations_eq.
    destruct (found (search true minute_mark text)) eqn:M.
    - exists " mins"%string. split; [now left|]. now rewrite durations_labelled.
    - destruct (found (search true hour_mark text)) eqn:H.
      + exists " hours"%string. split; [now right|].
        now rewrite durations_labelled.
      + exists " mins"%string. split; [now left|].
        fold durations. destruct durations as [|m l] eqn:E; [reflexivity|].
        assert (I : In m (finditer true full_duration_pattern text)).
        { fold durations. rewrite E. now left. }
        apply duration_unit_found in I. rewrite M, H in I.
        destruct I; discriminate. }
  destruct U as (unit & Hu & E). exists unit. eexists.
  split; [exact Hu|]. split; [reflexivity|]. split; [exact E|].
  rewrite E. split; [apply length_map|].
  intros k m H.
  now apply (NM _ _ (fun m => (duration_number m ++ unit)%string)).
Qed.

Lemma matches_kept_in_order_witness :
  exists date_list,
    Dict.get
      [("DATE", ["2024-01-01"; "2024-01-02"; "2024-01-02"]);
       ("TIME", ["3pm"; "4pm"; "4pm"]);
       ("DURATION", ["5 mins"; "6 mins"; "6 mins"]);
       ("ATTENDEE", [])]%string "DATE" = Some date_list /\
    length date_list
    = length (finditer true date_regex
                "today 3pm 5 mins, tomorrow 4pm 6 mins, tomorrow 4pm 6 mins") /\
    forall k m,
      nth_error
        (finditer true date_regex
           "today 3pm 5 mins, tomorrow 4pm 6 mins, tomorrow 4pm 6 mins") k
      = Some m ->
      nth_error date_list k = Some (parse_date 738886%Z (m_text m)).
Proof.
  pose proof (matches_kept_in_order (fun _ => Ok []) (fun _ => 738886%Z)
                "today 3pm 5 mins, tomorrow 4pm 6 mins, tomorrow 4pm 6 mins"
                [("DATE", ["2024-01-01"; "2024-01-02"; "2024-01-02"]);
                 ("TIME", ["3pm"; "4pm"; "4pm"]);
                 ("DURATION", ["5 mins"; "6 mins"; "6 mins"]);
                 ("ATTENDEE", [])]%string eq_refl) as H.
  exact (proj1 (proj2 (proj2 (proj2 H)))).
Defined.

(** *** The heuristic for names *)

(** What the name pattern matches: a capitalized word, one space, and
    possibly a second capitalized word. The space is not optional. *)
Lemma name_pattern_form pv w nx g :
  den false name_pattern pv w nx g ->
  exists first second,
    w = (first ++ " " ++ second)%string /\
    capitalized_word first /\
    (second = ""%string \/ capitalized_word second).
Proof.
  intro D.
  destruct D as (w0 & w1 & g0 & g1 & -> & -> & (-> & -> & _) & D).
  destruct D as (c & w2 & gc & g2 & -> & -> & (b & -> & B & ->) & D).
  destruct D as (tl & w3 & gt & g3 & -> & -> & (N & A & ->) & D).
  destruct D as (sp & w4 & gs & g4 & -> & -> & (b' & -> & L & ->) & D).
  destruct D as (snd & w5 & gn & g5 & -> & -> & S & (-> & -> & _)).
  unfold lit_eq in L. apply Ascii.eqb_eq in L. subst b'.
  exists (String b tl), snd. split; [|split].
  - simpl. now rewrite append_nil_r.
  - now exists b, tl.
  - destruct S as [S|[-> _]]; [right|now left].
    destruct S as (c2 & t2 & gc2 & gt2 & -> & -> & (b2 & -> & B2 & ->)
                   & (N2 & A2 & ->)).
    now exists b2, t2.
Qed.

(** Every attendee the heuristic finds holds the space after its first
    word: a capitalized word that no space follows is not found. *)
Lemma fallback_attendee_form text a :
  In a (findall false name_pattern text) ->
  substring_of a text /\
  exists first second,
    a = (first ++ " " ++ second)%string /\
    capitalized_word first /\
    (second = ""%string \/ capitalized_word second).
Proof.
  intro I. unfold findall in I. apply in_map_iff in I.
  destruct I as (m & <- & I). apply finditer_occurs in I.
  split; [now apply occurs_substring with (ic := false) (r := name_pattern)|].
  destruct I as (pre & post & _ & _ & D). now apply name_pattern_form in D.
Qed.

(** *** No pattern of [findall] matches the empty string *)

Lemma scanned_patterns_nonempty pv w nx g :
  (den true date_regex pv w nx g \/ den true time_regex pv w nx g \/
   den true full_duration_pattern pv w nx g \/
   den false name_pattern pv w nx g) ->
  w <> ""%string.
Proof.
  intros [D|[D|[D|D]]].
  - destruct D as [D|D];
      destruct D as (w0 & w1 & g0 & g1 & -> & -> & (-> & -> & _) & D).
    + destruct D as (wa & w2 & ga & g2 & -> & -> & D & _).
      apply den_alts_words in D; [|discriminate].
      destruct D as (u & I & D). apply den_word_length in D.
      destruct wa; [|discriminate]. simpl in I.
      decompose [or] I; try easy; subst u; discriminate.
    + destruct D as (wa & w2 & ga & g2 & -> & -> & D & _).
      apply den_word_length in D. destruct wa; discriminate.
  - apply time_regex_form in D.
    destruct D as (hour & minutes & gap & mer & -> & L & _).
    destruct hour; [simpl in L; lia|discriminate].
  - apply duration_den in D.
    destruct D as [(i & n & _ & _ & [N _] & (p1 & p2 & ->)) _].
    destruct p1; [|discriminate]. destruct n; [easy|discriminate].
  - apply name_pattern_form in D.
    destruct D as (first & second & -> & (c & tl & -> & _) & _).
    discriminate.
Qed.

End ExtractFacts.


(** ** More on [parse_date] *)

Module ParseDateMore.

Import Re Sem SemFacts PatternFacts Extractor Spec SpecMore ParseDateFacts.
Local Open Scope Z_scope.

(** The lower case of a digit is no letter of the patterns' first
    characters. *)
Lemma digit_lower_first (c : ascii) :
  Chr.is_digit c = true ->
  Ascii.eqb "n" (Chr.lower c) = false /\
  Ascii.eqb "t" (Chr.lower c) = false /\
  Ascii.eqb "y" (Chr.lower c) = false.
Proof.
  destruct c as [[] [] [] [] [] [] [] []]; vm_compute; intro H;
    solve [discriminate H | repeat split].
Qed.

(** A string that starts with a digit is returned as it is. *)
Lemma parse_date_digit_start (today : Z) (c : ascii) (r : string) :
  Chr.is_digit c = true -> parse_date today (String c r) = String c r.
Proof.
  intro H. destruct (digit_lower_first c H) as (Hn & Ht & Hy).
  unfold parse_date, parse_date_try.
  destruct (Datetime.add_days today 1) as [tomorrow|]; [|reflexivity].
  destruct (Datetime.add_days today (-1)) as [yesterday|]; [|reflexivity].
  cbn [bind lower].
  assert (M : re_match false next_day_re (String (Chr.lower c) (lower r)) = None).
  { unfold re_match, match_at, next_day_re. cbn [seqs word].
    rewrite !run_seq. cbn [run rest]. unfold lit_eq. rewrite Hn. reflexivity. }
  rewrite M. cbn [Dict.get String.eqb]. rewrite Ht, Hy. reflexivity.
Qed.

Lemma strftime_starts_digit (d : Z) :
  exists c r, Datetime.strftime_Ymd d = String c r /\ Chr.is_digit c = true.
Proof.
  unfold Datetime.strftime_Ymd. destruct (Datetime.ord2ymd d) as [[y m] dd].
  unfold Datetime.pad4. cbn [append]. eexists. eexists.
  split; [reflexivity|apply digit_is_digit].
Qed.

(** [parse_date] returns its input or a formatted date. *)
Lemma parse_date_input_or_date (today : Z) (date_str : string) :
  parse_date today date_str = date_str \/
  exists d, parse_date today date_str = Datetime.strftime_Ymd d.
Proof.
  unfold parse_date, parse_date_try.
  destruct (Datetime.add_days today 1) as [tomorrow|]; [|now left].
  destruct (Datetime.add_days today (-1)) as [yesterday|]; [|now left].
  cbn [bind].
  destruct (re_match false next_day_re (lower date_str)) as [m|].
  - destruct (group 1 m) as [target_day|]; [|now left].
    destruct (Dict.getitem days target_day) as [target|]; [|now left].
    cbn [bind].
    destruct (Datetime.add_days today _) as [d|]; [|now left].
    right. now exists d.
  - destruct (Dict.get _ (lower date_str)) as [d|]; [|now left].
    right. now exists d.
Qed.

(** X2: [parse_date] returns its input, or a date at most one day before and
    at most 13 days after the current date, which [datetime] can
    represent. *)
Theorem parse_date_result (today : Z) (date_str : string) :
  parse_date today date_str = date_str \/
  exists k, -1 <= k <= 13 /\ Datetime.valid (today + k) = true /\
            parse_date today date_str = Datetime.strftime_Ymd (today + k).
Proof.
  unfold parse_date, parse_date_try, Datetime.add_days.
  destruct (Datetime.valid (today + 1)) eqn:V1; [|now left].
  destruct (Datetime.valid (today + -1)) eqn:V2; [|now left].
  cbn [bind].
  assert (V0 : Datetime.valid (today + 0) = true).
  { unfold Datetime.valid, Datetime.min_ord, Datetime.max_ord in *. lia. }
  destruct (re_match false next_day_re (lower date_str)) as [m|].
  - destruct (group 1 m) as [target_day|]; [|now left].
    unfold Dict.getitem.
    destruct (Dict.get days target_day) as [target|] eqn:D; [|now left].
    cbn [bind].
    destruct (Datetime.valid (today + days_ahead target (Datetime.weekday today)))
      eqn:V3; [|now left].
    right. exists (days_ahead target (Datetime.weekday today)).
    destruct (days_inv _ _ D) as [_ T].
    pose proof (weekday_range today). unfold days_ahead in *.
    repeat split; try lia. exact V3.
  - cbn [Dict.get].
    destruct (String.eqb "today" (lower date_str)).
    { right. exists 0. rewrite Z.add_0_r in *. repeat split; try lia; auto. }
    destruct (String.eqb "tomorrow" (lower date_str)).
    { right. exists 1. repeat split; try lia; auto. }
    destruct (String.eqb "yesterday" (lower date_str)).
    { right. exists (-1). repeat split; try lia; auto. }
    now left.
Qed.

(** X1: parsing a date twice is parsing it once: what [parse_date] returns,
    it returns unchanged. *)
Theorem parse_date_idempotent (today : Z) (date_str : string) :
  parse_date today (parse_date today date_str) = parse_date today date_str.
Proof.
  destruct (parse_date_input_or_date today date_str) as [E|(d & E)].
  - now rewrite E.
  - rewrite E.
    destruct (strftime_starts_digit d) as (c & r & -> & H).
    now apply parse_date_digit_start.
Qed.

End ParseDateMore.


(** ** More on [extract_entities] *)

Module ExtractMore.

Import Re Sem SemFacts ScanFacts PatternFacts Extractor Spec SpecMore.
Import DictFacts ParseDateFacts ExtractFacts.

(** *** Dates *)

Lemma space_lower (c : ascii) : Chr.is_space c = true -> Chr.lower c = c.
Proof.
  destruct c as [[] [] [] [] [] [] [] []]; vm_compute; intro H;
    solve [discriminate H | reflexivity].
Qed.

Lemma spaces_lower (gap : string) :
  all Chr.is_space gap = true -> lower gap = gap.
Proof.
  induction gap as [|c gap IH]; simpl; [reflexivity|].
  intro H. apply andb_true_iff in H. destruct H as [Hc H].
  now rewrite (space_lower c Hc), IH.
Qed.

(** What the date pattern matches: one of the three literals or
    [next <weekday>], in any letter case. *)
Lemma date_regex_form pv w nx g :
  den true date_regex pv w nx g ->
  (exists k, Dict.get literal_offsets (lower w) = Some k) \/
  (exists day, In day weekdays /\ next_weekday_form w day).
Proof.
  intros [D|D];
    destruct D as (w0 & w1 & g0 & g1 & -> & -> & (-> & -> & _) & D).
  - left. destruct D as (wa & w2 & ga & g2 & -> & -> & D & (-> & _)).
    apply den_alts_words in D; [|discriminate].
    destruct D as (u & I & D). apply den_word in D. destruct D as [_ E].
    simpl. rewrite append_nil_r, E. simpl in I.
    decompose [or] I; try easy; subst u; eexists; reflexivity.
  - right. destruct D as (wn & w2 & gn & g2 & -> & -> & Dn & D).
    destruct D as (gap & w3 & gg & g3 & -> & -> & (N & A & _) & D).
    destruct D as (wd & w4 & gd & g4 & -> & -> & D & (-> & _)).
    apply den_word in Dn. destruct Dn as [_ En].
    apply den_alts_words in D; [|discriminate].
    destruct D as (u & I & D). apply den_word in D. destruct D as [_ E].
    exists (lower u). split.
    + simpl in I. decompose [or] I; try easy; subst u; simpl; tauto.
    + exists gap, ""%string. simpl append.
      rewrite !lower_append, En, E, (spaces_lower gap A). simpl.
      now rewrite !append_nil_r.
Qed.

(** A phrase the date pattern matches is turned into a date by
    [parse_date], whenever the dates around the clock can be computed. *)
Lemma parse_date_phrase (today : Z) (w : string) :
  (1 < today /\ today + 13 <= Datetime.max_ord)%Z ->
  (exists k, Dict.get literal_offsets (lower w) = Some k) \/
  (exists day, In day weekdays /\ next_weekday_form w day) ->
  exists k, (-1 <= k <= 13)%Z /\
            parse_date today w = Datetime.strftime_Ymd (today + k).
Proof.
  intros [Lo Hi] [(k & L)|(day & I & gap & tail & E & N & A)].
  - exists k. apply literal_inv in L. unfold parse_date.
    rewrite parse_date_try_in_range by lia.
    destruct L as [[-> ->]|[[-> ->]|[-> ->]]]; (split; [lia|]);
      match goal with
      | |- context [re_match false next_day_re ?s] =>
          replace (re_match false next_day_re s) with (@None rmatch)
            by (vm_compute; reflexivity)
      end; cbn [Dict.get String.eqb Ascii.eqb Bool.eqb];
      rewrite ?Z.add_0_r; reflexivity.
  - assert (D : exists target, Dict.get days day = Some target).
    { simpl in I. decompose [or] I; try easy; subst day; eexists; reflexivity. }
    destruct D as (target & D). destruct (days_inv day target D) as [_ T].
    pose proof (weekday_range today) as W.
    exists (days_ahead target (Datetime.weekday today)).
    split; [unfold days_ahead; lia|].
    unfold parse_date. rewrite parse_date_try_in_range by lia. rewrite E.
    destruct (next_day_match gap day tail target N A D) as (m & -> & ->).
    unfold Dict.getitem. rewrite D. cbn [bind].
    rewrite add_days_ok; [reflexivity|].
    unfold days_ahead, Datetime.min_ord. lia.
Qed.

Lemma parse_dates_Forall clock (P : string -> Prop) (Q : string -> Prop)
    (l : list string) :
  (forall i w, P w -> Q (parse_date (clock i) w)) ->
  Forall P l -> forall k, Forall Q (parse_dates clock k l).
Proof.
  intros H F. induction F as [|w l Hw F IH]; intro k; simpl; constructor; auto.
Qed.

(** X3: for the texts of the embedding, whose characters are the code
    points 0..255, every DATE entry is a date: when the dates around
    each reading of the clock can be computed and have years of four
    digits, an entry has the shape [YYYY-MM-DD] and is at most one day
    before and 13 days after a reading of the clock; no phrase of such a
    text is left as it was. (Beyond that range [re.IGNORECASE] lets the
    date pattern match letters, U+017F for s and U+0130 for i, that
    [str.lower] in [parse_date] does not turn into s and i; such texts
    are no strings of the embedding and the statement is not about
    them.) *)
Theorem date_entries_are_dates nlp clock text e :
  extract_entities nlp clock text = Ok e ->
  (forall i, clock_in_range (clock i)) ->
  exists dates,
    Dict.get e "DATE" = Some dates /\
    length dates = length (findall true date_regex text) /\
    Forall (fun d =>
              iso_shape d = true /\
              exists i k, (-1 <= k <= 13)%Z /\
                          d = Datetime.strftime_Ymd (clock i + k)) dates.
Proof.
  rewrite extract_entities_eq. destruct (nlp text) as [ents|]; [|discriminate].
  intros [= <-] R. eexists. split; [reflexivity|].
  split; [apply parse_dates_length|].
  apply parse_dates_Forall
    with (P := fun w => (exists k, Dict.get literal_offsets (lower w) = Some k) \/
                        (exists day, In day weekdays /\ next_weekday_form w day)).
  - intros i w F. destruct (R i) as [Lo Hi].
    unfold Datetime.ord_1000_01_01 in Lo.
    destruct (parse_date_phrase (clock i) w) as (k & K & E); [lia|exact F|].
    rewrite E. split.
    + apply strftime_shape. unfold Datetime.ord_1000_01_01. lia.
    + now exists i, k.
  - apply Forall_forall. intros w I. unfold findall in I.
    apply in_map_iff in I. destruct I as (m & <- & I).
    apply finditer_occurs in I. destruct I as (pre & post & _ & _ & D).
    now apply date_regex_form in D.
Qed.

Lemma date_entries_are_dates_witness :
  exists dates,
    Dict.get
      [("DATE", ["2024-01-02"; "2024-01-12"]); ("TIME", []);
       ("DURATION", []); ("ATTENDEE", [])]%string "DATE" = Some dates /\
    length dates
    = length (findall true date_regex "see you toMORROW or next  FRIDAY") /\
    Forall (fun d =>
              iso_shape d = true /\
              exists (i : nat) k, (-1 <= k <= 13)%Z /\
                          d = Datetime.strftime_Ymd (738886 + k))
      dates.
Proof.
  assert (R : forall i : nat, clock_in_range ((fun _ : nat => 738886%Z) i)).
  { intro i. split; vm_compute; [reflexivity|discriminate]. }
  exact (date_entries_are_dates (fun _ => Ok []) (fun _ => 738886%Z)
           "see you toMORROW or next  FRIDAY"
           [("DATE", ["2024-01-02"; "2024-01-12"]); ("TIME", []);
            ("DURATION", []); ("ATTENDEE", [])]%string eq_refl R).
Defined.

(** *** Times and the unit of the durations *)

(** What the time pattern matches ends with [am] or [pm], and no word
    character follows it. *)
Lemma time_regex_tail pv w nx g :
  den true time_regex pv w nx g ->
  exists w1 a b,
    w = (w1 ++ String a (String b ""))%string /\
    Chr.lower b = "m"%char /\ opt_word nx = false.
Proof.
  assert (T : forall pv' mer gm w5 g5,
             den true meridiem pv' mer (nextc w5 nx) gm ->
             den true WordB (lastc pv' mer) w5 nx g5 ->
             exists a b, (mer ++ w5)%string = String a (String b "") /\
                         Chr.lower b = "m"%char /\ opt_word nx = false).
  { intros pv' mer gm w5 g5 A (-> & _ & B).
    apply den_meridiem in A. destruct A as [_ AM].
    destruct mer as [|a [|b [|c mer]]];
      try (destruct AM as [AM|AM]; simpl in AM; discriminate).
    exists a, b. split; [reflexivity|].
    assert (Lb : Chr.lower b = "m"%char)
      by (destruct AM as [AM|AM]; simpl in AM; congruence).
    split; [exact Lb|]. simpl in B.
    rewrite (lower_az_word b) in B by (now rewrite Lb).
    now destruct (opt_word nx). }
  intros [D|D].
  - destruct D as (w0 & w1 & g0 & g1 & -> & -> & (-> & -> & _) & D).
    destruct D as (hour & w2 & gh & g2 & -> & -> & _ & D).
    destruct D as (minutes & w3 & gm & g3 & -> & -> & _ & D).
    destruct D as (gap & w4 & gg & g4 & -> & -> & _ & D).
    destruct D as (mer & w5 & ga & g5 & -> & -> & A & B).
    destruct (T _ _ _ _ _ A B) as (a & b & E & Lb & W).
    exists (hour ++ minutes ++ gap)%string, a, b. rewrite E.
    split; [|now split]. simpl. now rewrite !append_assoc.
  - destruct D as (w0 & w1 & g0 & g1 & -> & -> & (-> & -> & _) & D).
    destruct D as (hour & w2 & gh & g2 & -> & -> & _ & D).
    destruct D as (gap & w4 & gg & g4 & -> & -> & _ & D).
    destruct D as (mer & w5 & ga & g5 & -> & -> & A & B).
    destruct (T _ _ _ _ _ A B) as (a & b & E & Lb & W).
    exists (hour ++ gap)%string, a, b. rewrite E.
    split; [|now split]. simpl. now rewrite !append_assoc.
Qed.

(** A text with a clock time has a word for minutes: the [m] of [am]
    or [pm]. *)
Lemma time_gives_minute_word text t :
  In t (findall true time_regex text) -> has_unit_word minute_words text.
Proof.
  intro I. unfold findall in I. apply in_map_iff in I.
  destruct I as (m & _ & I). apply finditer_occurs in I.
  destruct I as (pre & post & -> & _ & D).
  apply time_regex_tail in D. destruct D as (w1 & a & b & -> & Lb & W).
  exists (pre ++ w1 ++ String a "")%string, (String b ""), post.
  split; [|split].
  - rewrite !append_assoc. reflexivity.
  - simpl. rewrite Lb. simpl. tauto.
  - exact W.
Qed.

(** X4: when the text holds a clock time, every duration is labelled in
    minutes, whatever its unit: the [m] of [am] and [pm] passes the test
    for a word for minutes. *)
Theorem clock_time_turns_durations_to_minutes nlp clock text e times :
  extract_entities nlp clock text = Ok e ->
  Dict.get e "TIME" = Some times -> times <> [] ->
  Dict.get e "DURATION"
  = Some (map (fun m => (duration_number m ++ " mins")%string)
            (finditer true full_duration_pattern text)).
Proof.
  rewrite extract_entities_eq. destruct (nlp text) as [ents|]; [|discriminate].
  intros [= <-] [= <-] N.
  destruct (findall true time_regex text) as [|t l] eqn:E; [easy|].
  assert (M : has_unit_word minute_words text).
  { apply time_gives_minute_word with (t := t). rewrite E. now left. }
  apply (unit_word_found minute_words) in M; [|discriminate|reflexivity].
  change (found (search true minute_mark text) = true) in M.
  cbn [Dict.get String.eqb Ascii.eqb Bool.eqb].
  now rewrite process_durations_eq, M, durations_labelled.
Qed.

Lemma clock_time_turns_durations_to_minutes_witness :
  Dict.get
    [("DATE", []); ("TIME", ["3pm"]); ("DURATION", ["2 mins"]);
     ("ATTENDEE", [])]%string "DURATION"
  = Some (map (fun m => (duration_number m ++ " mins")%string)
            (finditer true full_duration_pattern "2 hours at 3pm")).
Proof.
  assert (N : ["3pm"%string] <> []) by discriminate.
  exact (clock_time_turns_durations_to_minutes (fun _ => Ok [])
           (fun _ => 738886%Z) "2 hours at 3pm" _ ["3pm"%string]
           eq_refl eq_refl N).
Defined.

(** X5: when the text has no word for minutes, every duration is labelled
    in hours. *)
Theorem durations_in_hours nlp clock text e :
  extract_entities nlp clock text = Ok e ->
  ~ has_unit_word minute_words text ->
  Dict.get e "DURATION"
  = Some (map (fun m => (duration_number m ++ " hours")%string)
            (finditer true full_duration_pattern text)).
Proof.
  rewrite extract_entities_eq. destruct (nlp text) as [ents|]; [|discriminate].
  intros [= <-] N.
  cbn [Dict.get String.eqb Ascii.eqb Bool.eqb].
  rewrite process_durations_eq.
  destruct (found (search true minute_mark text)) eqn:M.
  - exfalso. apply N.
    now apply (unit_word_found minute_words); [discriminate|reflexivity|].
  - destruct (found (search true hour_mark text)) eqn:H.
    + now rewrite durations_labelled.
    + f_equal.
      destruct (finditer true full_duration_pattern text) as [|m l] eqn:E;
        [reflexivity|].
      assert (I : In m (finditer true full_duration_pattern text))
        by (rewrite E; now left).
      apply duration_unit_found in I. rewrite M, H in I.
      destruct I; discriminate.
Qed.

Lemma durations_in_hours_witness :
  Dict.get
    [("DATE", []); ("TIME", []); ("DURATION", ["2 hours"; "1 hours"]);
     ("ATTENDEE", [])]%string "DURATION"
  = Some (map (fun m => (duration_number m ++ " hours")%string)
            (finditer true full_duration_pattern "for 2 hours, then 1h")).
Proof.
  assert (N : ~ has_unit_word minute_words "for 2 hours, then 1h").
  { intro H.
    apply (unit_word_found minute_words) in H; [|discriminate|reflexivity].
    discriminate H. }
  exact (durations_in_hours (fun _ => Ok []) (fun _ => 738886%Z)
           "for 2 hours, then 1h" _ eq_refl N).
Defined.

Lemma substring_trans (a b c : string) :
  substring_of a b -> substring_of b c -> substring_of a c.
Proof.
  intros (p1 & q1 & ->) (p2 & q2 & ->).
  exists (p2 ++ p1)%string, (q1 ++ q2)%string. now rewrite !append_assoc.
Qed.

(** X6: every DURATION entry is a number of the text, one or more digits,
    followed by [ mins] or [ hours]: the loop never formats a missing
    number. *)
Theorem duration_entries_are_numbers nlp clock text e :
  extract_entities nlp clock text = Ok e ->
  exists durations,
    Dict.get e "DURATION" = Some durations /\
    forall d, In d durations ->
      exists n, digit_string n /\ substring_of n text /\
                (d = (n ++ " mins")%string \/ d = (n ++ " hours")%string).
Proof.
  rewrite extract_entities_eq. destruct (nlp text) as [ents|]; [|discriminate].
  intros [= <-]. eexists. split; [reflexivity|].
  intros d. rewrite process_durations_eq.
  assert (F : forall unit,
             In d (map (fun t => (fmt (first_nonempty t) ++ unit)%string)
                     (findall_groups true 6 full_duration_pattern text)) ->
             exists n, digit_string n /\ substring_of n text /\
                       d = (n ++ unit)%string).
  { intros unit I. rewrite durations_labelled in I. apply in_map_iff in I.
    destruct I as (m & <- & I).
    destruct (finditer_duration_number text m I) as [Dg Sb].
    exists (duration_number m). repeat split; try apply Dg.
    apply substring_trans with (b := m_text m); [exact Sb|].
    apply finditer_occurs in I.
    now apply occurs_substring with (ic := true) (r := full_duration_pattern). }
  destruct (found (search true minute_mark text)).
  - intro I. destruct (F _ I) as (n & ? & ? & ?). exists n. auto.
  - destruct (found (search true hour_mark text)); [|easy].
    intro I. destruct (F _ I) as (n & ? & ? & ?). exists n. auto.
Qed.

Lemma duration_entries_are_numbers_witness :
  exists durations,
    Dict.get
      [("DATE", []); ("TIME", []); ("DURATION", ["45 mins"]);
       ("ATTENDEE", [])]%string "DURATION" = Some durations /\
    forall d, In d durations ->
      exists n, digit_string n /\ substring_of n "call for 45min" /\
                (d = (n ++ " mins")%string \/ d = (n ++ " hours")%string).
Proof.
  exact (duration_entries_are_numbers (fun _ => Ok []) (fun _ => 738886%Z)
           "call for 45min" _ eq_refl).
Defined.

(** *** The second time pattern *)

(** The scan depends on the pattern only through the match at each
    position. *)
Lemma scan_ext ic r1 r2 :
  (forall pos pv s, match_at ic r1 pos pv s = match_at ic r2 pos pv s) ->
  forall s skip pos pv, scan ic r1 skip pos pv s = scan ic r2 skip pos pv s.
Proof.
  intro H. induction s as [|b s IH]; intros skip pos pv; simpl.
  - destruct skip; [|reflexivity]. now rewrite H.
  - destruct skip; [|apply IH]. rewrite H.
    destruct (match_at ic r2 pos pv (String b s)); now rewrite IH.
Qed.

(** What the second time pattern matches, the first matches too, with
    no minutes. *)
Lemma second_time_pattern_covered pv w nx g :
  den true (nth 1 time_patterns Eps) pv w nx g ->
  den true (hd Eps time_patterns) pv w nx g.
Proof.
  intro D.
  destruct D as (w0 & w1 & g0 & g1 & -> & -> & DW & D).
  destruct D as (hour & w2 & gh & g2 & -> & -> & H & D).
  exists w0, (hour ++ w2)%string, g0, (g2 ++ gh).
  split; [reflexivity|]. split; [reflexivity|]. split; [exact DW|].
  exists hour, w2, gh, g2.
  split; [reflexivity|]. split; [reflexivity|]. split; [exact H|].
  exists ""%string, w2, [], g2.
  split; [reflexivity|]. split; [symmetry; apply app_nil_r|].
  split; [right; now split|exact D].
Qed.

Lemma match_at_time_regex pos pv s :
  match_at true time_regex pos pv s
  = match_at true (hd Eps time_patterns) pos pv s.
Proof.
  unfold match_at.
  change (run true time_regex (Cfg [] pv s))
    with (run true (hd Eps time_patterns) (Cfg [] pv s)
          ++ run true (nth 1 time_patterns Eps) (Cfg [] pv s)).
  destruct (run true (hd Eps time_patterns) (Cfg [] pv s)) as [|c l] eqn:E1;
    [|reflexivity].
  destruct (run true (nth 1 time_patterns Eps) (Cfg [] pv s)) as [|c' l'] eqn:E2;
    [reflexivity|exfalso].
  destruct (run_sound true (nth 1 time_patterns Eps) (Cfg [] pv s) c')
    as (w & g & Hr & _ & _ & D); [rewrite E2; now left|].
  simpl in Hr. apply second_time_pattern_covered in D.
  apply (run_complete true _ [] pv w (rest c') g) in D.
  rewrite <- Hr, E1 in D. exact D.
Qed.

(** X7: the second of the two time patterns adds nothing: the times found
    are those the first pattern finds alone. *)
Theorem second_time_pattern_redundant (text : string) :
  findall true time_regex text = findall true (hd Eps time_patterns) text.
Proof.
  unfold findall, finditer. f_equal.
  apply scan_ext. intros pos pv s. apply match_at_time_regex.
Qed.

(** *** Where the attendees come from *)

Lemma persons_labelled (ents : list ent) (a : string) :
  In a (persons ents) <->
  exists en, In en ents /\ label_ en = "PERSON"%string /\ ent_text en = a.
Proof.
  unfold persons. rewrite in_map_iff. split.
  - intros (en & E & I). apply filter_In in I. destruct I as [I L].
    apply String.eqb_eq in L. now exists en.
  - intros (en & I & L & E). exists en. split; [exact E|].
    apply filter_In. split; [exact I|]. now apply String.eqb_eq.
Qed.

(** X8: the attendees come from one source only. When the pipeline reports
    a person, they are the texts of its entities labelled PERSON and the
    heuristic is not used; when it reports none, each attendee is a
    part of the text that the heuristic pattern matches: a capitalized
    word, a space and possibly a second capitalized word. *)
Theorem attendee_sources nlp clock text e ents :
  extract_entities nlp clock text = Ok e ->
  nlp text = Ok ents ->
  exists attendees,
    Dict.get e "ATTENDEE" = Some attendees /\
    (persons ents <> [] ->
     forall a, In a attendees <->
       exists en, In en ents /\ label_ en = "PERSON"%string /\ ent_text en = a) /\
    (persons ents = [] ->
     forall a, In a attendees ->
       substring_of a text /\
       exists first second,
         a = (first ++ " " ++ second)%string /\
         capitalized_word first /\
         (second = ""%string \/ capitalized_word second)).
Proof.
  rewrite extract_entities_eq. intros H E. rewrite E in H.
  injection H as <-. eexists. split; [reflexivity|].
  rewrite keys_fromkeys. unfold attendees_of. split.
  - intros N a. rewrite first_occurrences_In, <- persons_labelled.
    destruct (persons ents); [easy|]. simpl. tauto.
  - intros -> a I. simpl in I. apply first_occurrences_In in I.
    destruct I as [I _]. now apply fallback_attendee_form.
Qed.

Lemma attendee_sources_witness :
  exists attendees,
    Dict.get
      [("DATE", []); ("TIME", []); ("DURATION", []);
       ("ATTENDEE", ["Bob"])]%string "ATTENDEE" = Some attendees /\
    (persons [Ent "Bob" "PERSON"; Ent "Acme" "ORG"] <> [] ->
     forall a, In a attendees <->
       exists en, In en [Ent "Bob" "PERSON"; Ent "Acme" "ORG"] /\
                  label_ en = "PERSON"%string /\ ent_text en = a) /\
    (persons [Ent "Bob" "PERSON"; Ent "Acme" "ORG"] = [] ->
     forall a, In a attendees ->
       substring_of a "Bob of Acme met Jane Doe" /\
       exists first second,
         a = (first ++ " " ++ second)%string /\
         capitalized_word first /\
         (second = ""%string \/ capitalized_word second)).
Proof.
  exact (attendee_sources
           (fun _ => Ok [Ent "Bob" "PERSON"; Ent "Acme" "ORG"])
           (fun _ => 738886%Z) "Bob of Acme met Jane Doe" _ _ eq_refl eq_refl).
Defined.

End ExtractMore.


(** ** The interactive tool *)

Module ReplFacts.

Import Re Sem Extractor Spec SpecMore Py Repl PatternFacts ExtractFacts.

(** *** Stripping white space *)

Lemma lstrip_spaces (pad s : string) :
  all Chr.is_space pad = true -> lstrip (pad ++ s) = lstrip s.
Proof.
  induction pad as [|c pad IH]; simpl; [reflexivity|].
  intro H. apply andb_true_iff in H. destruct H as [Hc H].
  rewrite Hc. now apply IH.
Qed.

Lemma rstrip_spaces (pad : string) :
  all Chr.is_space pad = true -> rstrip pad = ""%string.
Proof.
  induction pad as [|c pad IH]; simpl; [reflexivity|].
  intro H. apply andb_true_iff in H. destruct H as [Hc H].
  now rewrite IH, Hc.
Qed.

Lemma rstrip_append_spaces (s pad : string) :
  all Chr.is_space pad = true -> rstrip (s ++ pad) = rstrip s.
Proof.
  intro H. induction s as [|c s IH]; simpl.
  - now apply rstrip_spaces.
  - now rewrite IH.
Qed.

Lemma lower_az_not_space (b : ascii) :
  Chr.is_az (Chr.lower b) = true -> Chr.is_space b = false.
Proof.
  destruct b as [[] [] [] [] [] [] [] []]; vm_compute; intro H;
    solve [reflexivity | discriminate H].
Qed.

(** The word [exit], in any letter case and with white space around it,
    is stripped to itself. *)
Lemma strip_exit (pad1 w pad2 : string) :
  all Chr.is_space pad1 = true -> all Chr.is_space pad2 = true ->
  lower w = "exit"%string ->
  strip (pad1 ++ w ++ pad2) = w.
Proof.
  intros P1 P2 E. unfold strip. rewrite lstrip_spaces by exact P1.
  destruct w as [|a [|b [|c [|d [|x w]]]]]; try discriminate E.
  simpl in E. injection E as Ea Eb Ec Ed.
  assert (Ha : Chr.is_space a = false)
    by (apply lower_az_not_space; now rewrite Ea).
  assert (Hd : Chr.is_space d = false)
    by (apply lower_az_not_space; now rewrite Ed).
  cbn [append lstrip]. rewrite Ha.
  change (String a (String b (String c (String d pad2))))
    with (String a (String b (String c (String d "")))  ++ pad2)%string.
  rewrite rstrip_append_spaces by exact P2.
  simpl. now rewrite Hd.
Qed.

(** X9: typing [exit], in any letter case and with any white space around
    it, ends the session: the tool answers [Exiting...] and reads
    nothing of what follows. *)
Theorem exit_ends_session nlp clock n (pad1 w pad2 : string)
    (rest : list input_event) :
  all Chr.is_space pad1 = true -> all Chr.is_space pad2 = true ->
  lower w = "exit"%string ->
  loop nlp clock n (Line (pad1 ++ w ++ pad2) :: rest)
  = [Prompt (nl ++ "Enter text: "); Print "Exiting..."].
Proof.
  intros P1 P2 E. simpl. rewrite (strip_exit pad1 w pad2 P1 P2 E).
  unfold is_exit. rewrite E. reflexivity.
Qed.

Lemma exit_ends_session_witness :
  loop (fun _ => Ok []) (fun _ _ => 738886%Z) 0
    [Line "  ExIt "; Line "tomorrow at 3pm"; Interrupt]
  = [Prompt (nl ++ "Enter text: "); Print "Exiting..."].
Proof.
  exact (exit_ends_session (fun _ => Ok []) (fun _ _ => 738886%Z) 0
           "  " "ExIt" " " [Line "tomorrow at 3pm"; Interrupt]
           eq_refl eq_refl eq_refl).
Defined.

(** *** How a session ends *)

Lemma loop_last nlp clock (inputs : list input_event) : forall n,
  exists before final,
    loop nlp clock n inputs = before ++ [Print final] /\
    In final ["Exiting...";
              nl ++ "Operation cancelled by user.";
              "A critical error occurred: EOF when reading a line"]%string.
Proof.
  induction inputs as [|ev inputs IH]; intro n.
  - exists [Prompt (nl ++ "Enter text: ")%string]. eexists.
    split; [reflexivity|]. simpl. tauto.
  - destruct ev as [line|].
    + simpl. destruct (is_exit (strip line)).
      * exists [Prompt (nl ++ "Enter text: ")%string]. eexists.
        split; [reflexivity|]. simpl. tauto.
      * destruct (IH (S n)) as (before & final & E & I). rewrite E.
        exists (Prompt (nl ++ "Enter text: ")%string
                :: respond nlp (clock n) (strip line) ++ before), final.
        split; [|exact I]. simpl. now rewrite app_assoc.
    + exists [Prompt (nl ++ "Enter text: ")%string]. eexists.
      split; [reflexivity|]. simpl. tauto.
Qed.

(** X10: whatever is typed, the last thing a session prints is one of the
    messages of its three ways out: [Exiting...] after [exit], the
    cancellation after an interrupt, or a critical error, for the end of
    the input or for a pipeline that could not be loaded. The report of
    a failed extraction is never the last line. *)
Theorem session_last_message load clock log_file (inputs : list input_event) :
  exists before final,
    interactive_extractor load clock log_file inputs = before ++ [Print final] /\
    (final = "Exiting..."%string \/
     final = (nl ++ "Operation cancelled by user.")%string \/
     exists msg, final = ("A critical error occurred: " ++ msg)%string).
Proof.
  unfold interactive_extractor. destruct load as [nlp|e].
  - destruct (loop_last nlp clock inputs 0) as (before & final & E & I).
    rewrite E. eexists. exists final. split; [apply app_assoc|].
    simpl in I. decompose [or] I; try easy; subst final; auto.
    right. right. now exists "EOF when reading a line"%string.
  - exists [], ("A critical error occurred: " ++ exn_str e)%string.
    split; [reflexivity|]. right. right. now exists (exn_str e).
Qed.

(** *** One round for each line *)

(** X11: the lines that come before the one that ends the session are
    answered one by one, each by what its own extraction gives, and the
    session goes on after them. *)
Theorem loop_answers_each_line nlp clock (ls : list string)
    (tail : list input_event) : forall n,
  Forall (fun l => is_exit (strip l) = false) ls ->
  loop nlp clock n (map Line ls ++ tail)
  = answers nlp clock n ls ++ loop nlp clock (n + length ls) tail.
Proof.
  induction ls as [|l ls IH]; intros n F.
  - simpl. now rewrite Nat.add_0_r.
  - inversion F as [|? ? Hl F']; subst.
    change (loop nlp clock n (map Line (l :: ls) ++ tail))
      with (Prompt (nl ++ "Enter text: ")%string ::
            (if is_exit (strip l) then [Print "Exiting..."%string]
             else respond nlp (clock n) (strip l)
                  ++ loop nlp clock (S n) (map Line ls ++ tail))).
    rewrite Hl, (IH (S n) F'). simpl.
    now rewrite <- app_assoc, Nat.add_succ_r.
Qed.

Lemma loop_answers_each_line_witness :
  loop (fun _ => Ok []) (fun _ _ => 738886%Z) 0
    (map Line ["at 3pm"; "tomorrow"]%string ++ [Line "exit"])
  = answers (fun _ => Ok []) (fun _ _ => 738886%Z) 0 ["at 3pm"; "tomorrow"]%string
    ++ loop (fun _ => Ok []) (fun _ _ => 738886%Z)
         (0 + length ["at 3pm"; "tomorrow"]%string) [Line "exit"].
Proof.
  apply loop_answers_each_line. repeat constructor.
Defined.

(** X12: an extraction that raises does not end the session: its message is
    printed and the next line is read. *)
Theorem extraction_error_goes_on nlp clock n (line : string) (e : exn)
    (rest : list input_event) :
  is_exit (strip line) = false ->
  nlp (strip line) = Raise e ->
  loop nlp clock n (Line line :: rest)
  = Prompt (nl ++ "Enter text: ")
    :: Print ("An error occurred: " ++ exn_str e)
    :: loop nlp clock (S n) rest.
Proof.
  intros X E. simpl. rewrite X. unfold respond.
  now rewrite extract_entities_eq, E.
Qed.

Lemma extraction_error_goes_on_witness :
  loop (fun _ => Raise (OtherError "model failure")) (fun _ _ => 738886%Z) 0
    [Line "tomorrow"; Line "exit"]
  = Prompt (nl ++ "Enter text: ")
    :: Print ("An error occurred: " ++ exn_str (OtherError "model failure"))
    :: loop (fun _ => Raise (OtherError "model failure"))
         (fun _ _ => 738886%Z) 1 [Line "exit"].
Proof.
  exact (extraction_error_goes_on
           (fun _ => Raise (OtherError "model failure")) (fun _ _ => 738886%Z)
           0 "tomorrow" (OtherError "model failure") [Line "exit"]
           eq_refl eq_refl).
Defined.

(** *** What is printed for a text *)

Lemma category_line (category : string) (values : list string) :
  (if is_nil values
   then Print ("  " ++ category ++ ": None")
   else Print ("  " ++ category ++ ": " ++ repr_list values))%string
  = Print ("  " ++ category ++ ": " ++ show_values values)%string.
Proof. unfold show_values. now destruct values. Qed.

(** X13: when the pipeline returns, the answer to a text is five lines: the
    heading and one line for each of DATE, TIME, DURATION and ATTENDEE,
    in this order, that shows the list of the category, or [None] for
    an empty list. *)
Theorem answer_has_four_category_lines nlp clock text ents :
  nlp text = Ok ents ->
  exists dates times durations attendees,
    extract_entities nlp clock text
    = Ok [("DATE", dates); ("TIME", times); ("DURATION", durations);
          ("ATTENDEE", attendees)]%string /\
    respond nlp clock text
    = [Print (nl ++ "Extracted Entities:");
       Print ("  DATE: " ++ show_values dates);
       Print ("  TIME: " ++ show_values times);
       Print ("  DURATION: " ++ show_values durations);
       Print ("  ATTENDEE: " ++ show_values attendees)]%string.
Proof.
  intro E. unfold respond. rewrite extract_entities_eq, E.
  do 4 eexists. split; [reflexivity|].
  unfold print_results. cbn [map]. now rewrite !category_line.
Qed.

Lemma answer_has_four_category_lines_witness :
  exists dates times durations attendees,
    extract_entities (fun _ => Ok []) (fun _ => 738886%Z)
      "Jane Doe tomorrow at 3pm"
    = Ok [("DATE", dates); ("TIME", times); ("DURATION", durations);
          ("ATTENDEE", attendees)]%string /\
    respond (fun _ => Ok []) (fun _ => 738886%Z) "Jane Doe tomorrow at 3pm"
    = [Print (nl ++ "Extracted Entities:");
       Print ("  DATE: " ++ show_values dates);
       Print ("  TIME: " ++ show_values times);
       Print ("  DURATION: " ++ show_values durations);
       Print ("  ATTENDEE: " ++ show_values attendees)]%string.
Proof.
  exact (answer_has_four_category_lines (fun _ => Ok []) (fun _ => 738886%Z)
           "Jane Doe tomorrow at 3pm" [] eq_refl).
Defined.

(** The answer to one text, as it is printed. *)
Lemma answer_example :
  respond (fun _ => Ok []) (fun _ => 738886%Z) "Jane Doe tomorrow at 3pm"
  = [Print (nl ++ "Extracted Entities:");
     Print "  DATE: ['2024-01-02']";
     Print "  TIME: ['3pm']";
     Print "  DURATION: None";
     Print "  ATTENDEE: ['Jane Doe']"]%string.
Proof. vm_compute. reflexivity. Qed.

(** *** No line feed inside a category line *)

Lemma contains_append (a : ascii) (s1 s2 : string) :
  contains a (s1 ++ s2) = contains a s1 || contains a s2.
Proof.
  induction s1 as [|c s1 IH]; simpl; [reflexivity|].
  now rewrite IH, orb_assoc.
Qed.

Lemma repr_char_one_line (c : ascii) :
  contains line_feed (repr_char squote c) = false /\
  contains line_feed (repr_char dquote c) = false.
Proof. destruct c as [[] [] [] [] [] [] [] []]; split; reflexivity. Qed.

Lemma repr_body_one_line (quote : ascii) (s : string) :
  quote = squote \/ quote = dquote ->
  contains line_feed (repr_body quote s) = false.
Proof.
  intro Q. induction s as [|c s IH]; simpl; [reflexivity|].
  rewrite contains_append, IH, orb_false_r.
  destruct Q as [->| ->]; apply repr_char_one_line.
Qed.

Lemma repr_str_one_line (s : string) :
  contains line_feed (repr_str s) = false.
Proof.
  unfold repr_str.
  destruct (contains squote s && negb (contains dquote s)); simpl;
    rewrite contains_append, repr_body_one_line by tauto; reflexivity.
Qed.

Lemma join_comma_one_line (items : list string) :
  (forall x, In x items -> contains line_feed x = false) ->
  contains line_feed (join_comma items) = false.
Proof.
  induction items as [|x items IH]; intro H; [reflexivity|].
  destruct items as [|y items].
  - cbn [join_comma]. apply H. now left.
  - change (join_comma (x :: y :: items))
      with (x ++ ", " ++ join_comma (y :: items))%string.
    rewrite !contains_append, (H x) by now left.
    rewrite IH; [reflexivity|]. intros z I. apply H. now right.
Qed.

Lemma repr_list_one_line (values : list string) :
  contains line_feed (repr_list values) = false.
Proof.
  unfold repr_list. rewrite !contains_append.
  rewrite join_comma_one_line; [reflexivity|].
  intros x I. apply in_map_iff in I. destruct I as (v & <- & _).
  apply repr_str_one_line.
Qed.

Lemma show_values_one_line (values : list string) :
  contains line_feed (show_values values) = false.
Proof.
  unfold show_values. destruct (is_nil values); [reflexivity|].
  apply repr_list_one_line.
Qed.

(** X14: each category of an answer is printed on one line: whatever the
    extracted strings hold (a time may hold a line feed between its
    digits and [am] or [pm]), the line of a category holds no line
    feed, since a list is shown with its strings quoted and escaped. *)
Theorem category_lines_hold_no_line_feed nlp clock text ents :
  nlp text = Ok ents ->
  forall o, In o (tl (respond nlp clock text)) ->
    contains line_feed (printed o) = false.
Proof.
  intro E. unfold respond. rewrite extract_entities_eq, E.
  unfold print_results. cbn [map tl]. rewrite !category_line.
  intros o I. cbn [In] in I.
  decompose [or] I; try easy; subst o; cbn [printed];
    rewrite !contains_append, show_values_one_line; reflexivity.
Qed.

Lemma category_lines_hold_no_line_feed_witness :
  findall true time_regex ("meet at 3" ++ nl ++ "pm") = [("3" ++ nl ++ "pm")%string] /\
  contains line_feed (printed (Print "  TIME: ['3\npm']")) = false.
Proof.
  split; [reflexivity|].
  apply (category_lines_hold_no_line_feed (fun _ => Ok [])
           (fun _ => 738886%Z) ("meet at 3" ++ nl ++ "pm")%string []
           eq_refl).
  right. left. reflexivity.
Defined.

End ReplFacts.
